(** * TeachMeFinance: the Ollama chat client of [chatbot.py]

    A shallow embedding of [chatbot.py]: the request/response bridge
    [chat_completion_ollama], the interactive loop [chat] and the single-shot
    command [ask], followed by the properties of the client's contract.

    Modelling choices.
    - A Python [str] is a [String.string], one [ascii] per code point; the
      model therefore covers text whose code points are below 256, and
      [strip] and [lower] are CPython's on that range.
    - A parsed JSON document is a value of [json]; a [dict] keeps its items in
      insertion order as an association list (keys of a real dict are
      distinct, lookup takes the first binding).
    - Python floats are only forwarded and printed by this program: their type
      and their [repr] are parameters, as is the [repr] of a [str].
    - Exceptions are values of [exn]; a computation either returns or raises
      ([result]); stateful code runs in the monad [M] over a [world] that
      holds the list objects of the program (the heap), the log of HTTP
      requests issued so far, the console output, and the behaviour of the
      HTTP layer.
    - [console.print] of rich reads its argument as markup and raises
      [MarkupError] on text it cannot parse; which outputs fail to render is
      a parameter, [markup_fails]. *)

From Stdlib Require Import String Ascii List ZArith Bool Arith Lia DecimalString.
Import ListNotations.

Set Warnings "-register-all".

Open Scope string_scope.
Open Scope list_scope.

Infix "+:+" := String.append (at level 60, right associativity).

(** ** Text primitives of CPython used by the program *)

Module Text.

(** [str.isspace] on one character (code points below 256): the ASCII set
    of [_Py_ascii_whitespace] plus NEL and NBSP. *)
Definition isspace (c : ascii) : bool :=
  let n := nat_of_ascii c in
  (((9 <=? n) && (n <=? 13)) || ((28 <=? n) && (n <=? 32))
   || (n =? 133) || (n =? 160))%nat.

Fixpoint lstrip (s : string) : string :=
  match s with
  | EmptyString => EmptyString
  | String c s' => if isspace c then lstrip s' else s
  end.

Fixpoint rstrip (s : string) : string :=
  match s with
  | EmptyString => EmptyString
  | String c s' =>
      match rstrip s' with
      | EmptyString => if isspace c then EmptyString else String c EmptyString
      | r => String c r
      end
  end.

(** [s.strip()] *)
Definition strip (s : string) : string := lstrip (rstrip s).

(** [str.lower] on one character: A-Z and the Latin-1 capitals. *)
Definition lower_char (c : ascii) : ascii :=
  let n := nat_of_ascii c in
  if (((65 <=? n) && (n <=? 90))
      || ((192 <=? n) && (n <=? 222) && negb (n =? 215)))%nat
  then ascii_of_nat (n + 32) else c.

(** [s.lower()] *)
Fixpoint lower (s : string) : string :=
  match s with
  | EmptyString => EmptyString
  | String c s' => String (lower_char c) (lower s')
  end.

(** [needle in hay] for two strings: substring test. *)
Fixpoint contains (needle hay : string) : bool :=
  String.prefix needle hay
  || match hay with
     | EmptyString => false
     | String _ hay' => contains needle hay'
     end.

(** [sep.join(parts)] *)
Fixpoint join (sep : string) (parts : list string) : string :=
  match parts with
  | [] => ""
  | [p] => p
  | p :: ps => p +:+ sep +:+ join sep ps
  end.

(** [str(z)] for an [int]. *)
Definition of_int (z : Z) : string := NilZero.string_of_int (Z.to_int z).

End Text.

(** ** Exceptions and results *)

(** The exception classes that occur; all derive from [Exception].
    [RequestException] stands for [requests.RequestException] and its
    subclasses (connection errors, timeouts, HTTP status errors, JSON decoding
    errors of [requests]); its argument is [str(e)]. [Exit] is [typer.Exit],
    [MarkupError] is [rich.errors.MarkupError]. *)
Inductive exn : Type :=
| RequestException (descr : string)
| RuntimeError (msg : string)
| TypeError
| AttributeError
| KeyError (key : string)
| Exit (code : Z)
| MarkupError
| OtherException (name descr : string).

Inductive result (A : Type) : Type :=
| Return (a : A)
| Raise (e : exn).
Arguments Return {A} a.
Arguments Raise {A} e.

Class Monad (m : Type -> Type) : Type := {
  ret : forall {A}, A -> m A;
  bind : forall {A B}, m A -> (A -> m B) -> m B
}.

Declare Scope monad_scope.
Notation "x <- c ;; k" := (bind c (fun x => k))
  (at level 61, c at next level, right associativity) : monad_scope.
Notation "c ;;; k" := (bind c (fun _ => k))
  (at level 61, right associativity) : monad_scope.
Open Scope monad_scope.

#[global] Instance result_Monad : Monad result := {|
  ret := fun A a => Return a;
  bind := fun A B c k => match c with Return a => k a | Raise e => Raise e end
|}.

(** The two [RuntimeError]s of [chat_completion_ollama], under the names the
    specification gives them. *)
Definition TransportError (cause : string) : exn :=
  RuntimeError ("Ollama request failed: " +:+ cause).
Definition SchemaError : exn :=
  RuntimeError "Unexpected Ollama response schema".

(** ** Data model *)

Section Model.

(** Python's [float], its [repr], and the [repr] of a [str]. *)
Variable float : Type.
Variable float_repr : float -> string.
Variable str_repr : string -> string.

(** [os.environ] when the module is imported. *)
Variable os_environ : list (string * string).

(** A value produced by [json.loads]. *)
Inductive json : Type :=
| JNull
| JBool (b : bool)
| JInt (z : Z)
| JFloat (f : float)
| JStr (s : string)
| JList (l : list json)
| JDict (d : list (string * json)).

(** [d.get(key)] on the items of a dict. *)
Fixpoint dict_get (d : list (string * json)) (key : string) : option json :=
  match d with
  | [] => None
  | (k, v) :: d' => if String.eqb k key then Some v else dict_get d' key
  end.

(** [repr(v)] *)
Fixpoint py_repr (v : json) : string :=
  match v with
  | JNull => "None"
  | JBool true => "True"
  | JBool false => "False"
  | JInt z => Text.of_int z
  | JFloat f => float_repr f
  | JStr s => str_repr s
  | JList l => "[" +:+ Text.join ", " (map py_repr l) +:+ "]"
  | JDict d =>
      "{" +:+ Text.join ", "
                (map (fun kv => str_repr (fst kv) +:+ ": " +:+ py_repr (snd kv)) d)
          +:+ "}"
  end.

(** [str(v)] *)
Definition py_str (v : json) : string :=
  match v with
  | JStr s => s
  | _ => py_repr v
  end.

(** [needle in v] for a string [needle]: key membership in a dict, element
    membership in a list, substring test in a str, [TypeError] otherwise. *)
Definition py_contains (needle : string) (v : json) : result bool :=
  match v with
  | JDict d => Return (match dict_get d needle with Some _ => true | None => false end)
  | JList l =>
      Return (existsb (fun x => match x with
                                | JStr s => String.eqb needle s
                                | _ => false
                                end) l)
  | JStr s => Return (Text.contains needle s)
  | JNull | JBool _ | JInt _ | JFloat _ => Raise TypeError
  end.

(** [v[key]] for a string [key]. *)
Definition py_getitem (v : json) (key : string) : result json :=
  match v with
  | JDict d =>
      match dict_get d key with
      | Some x => Return x
      | None => Raise (KeyError key)
      end
  | _ => Raise TypeError
  end.

(** [v.strip()]: only a str has the method. *)
Definition py_strip (v : json) : result string :=
  match v with
  | JStr s => Return (Text.strip s)
  | _ => Raise AttributeError
  end.

(** A transcript entry, the dict [{"role": ..., "content": ...}]. *)
Record Message : Type := mkMessage { role : string; content : string }.

Definition Message_json (m : Message) : json :=
  JDict [("role", JStr (role m)); ("content", JStr (content m))].

Definition DEFAULT_OLLAMA_URL : string :=
  match find (fun kv => String.eqb (fst kv) "OLLAMA_URL") os_environ with
  | Some kv => snd kv
  | None => "http://localhost:11434"
  end.

(** ** The world: heap, HTTP layer, console *)

(** What [requests.post(url, json=..., timeout=...)] is called with. *)
Record http_request : Type := mkRequest {
  req_url : string;
  req_json : json;
  req_timeout : Z
}.

(** A [requests.Response], by what its two methods used here do:
    [raise_for_status()] raises or not, [json()] raises or returns the
    parsed body. *)
Record Response : Type := mkResponse {
  raise_for_status : option exn;
  resp_json : result json
}.

Inductive post_outcome : Type :=
| post_raises (e : exn)
| post_returns (r : Response).

Inductive console_event : Type :=
| PrintBanner (model : string)      (* banner(model) *)
| PrintError (e : exn)              (* console.print(f"[red]Error:[/] {e}") *)
| PrintPanel (answer : string)      (* console.print(Panel(answer, ...)) *)
| PrintText (answer : string).      (* console.print(answer) *)

(** rich: [markup_fails ev] when rendering the output [ev] raises
    [MarkupError] (its text holds a closing tag that closes nothing). *)
Variable markup_fails : console_event -> bool.

(** A reference to a list object of the heap. *)
Definition ref : Type := nat.

(** [server n req] is what the HTTP layer does with the [n]-th request of
    the process when that request is [req]. *)
Record world : Type := mkWorld {
  server : nat -> http_request -> post_outcome;
  sent : list http_request;
  heap : list (list Message);
  console : list console_event
}.

Definition M (A : Type) : Type := world -> result A * world.

#[global] Instance M_Monad : Monad M := {|
  ret := fun A a w => (Return a, w);
  bind := fun A B c k w =>
            match c w with
            | (Return a, w') => k a w'
            | (Raise e, w') => (Raise e, w')
            end
|}.

Definition raise {A : Type} (e : exn) : M A := fun w => (Raise e, w).

Definition lift {A : Type} (r : result A) : M A := fun w => (r, w).

(** [try: c / except Exception as e: ...] seen from the handler's side: the
    outcome of [c] as a value. *)
Definition try_except {A : Type} (c : M A) : M (result A) :=
  fun w => let (r, w') := c w in (Return r, w').

(** [try: c / except requests.RequestException as e: h(str(e))] *)
Definition try_except_RequestException {A : Type}
           (c : M A) (h : string -> M A) : M A :=
  fun w =>
    match c w with
    | (Raise (RequestException descr), w') => h descr w'
    | rw => rw
    end.

Definition deref (r : ref) : M (list Message) :=
  fun w => (Return (nth r (heap w) []), w).

(** A list display [[m1, ..., mn]]: a fresh list object. *)
Definition alloc (l : list Message) : M ref :=
  fun w => (Return (length (heap w)),
            mkWorld (server w) (sent w) (heap w ++ [l]) (console w)).

Fixpoint update (h : list (list Message)) (r : ref) (f : list Message -> list Message)
  : list (list Message) :=
  match h, r with
  | [], _ => []
  | l :: h', O => f l :: h'
  | l :: h', S r' => l :: update h' r' f
  end.

(** [r.append(m)] *)
Definition append (r : ref) (m : Message) : M unit :=
  fun w => (Return tt,
            mkWorld (server w) (sent w)
                    (update (heap w) r (fun l => l ++ [m])) (console w)).

(** [console.print(...)]: the output appears on the console, or rich raises
    [MarkupError] and nothing is printed. *)
Definition console_print (ev : console_event) : M unit :=
  fun w => if markup_fails ev
           then (Raise MarkupError, w)
           else (Return tt,
                 mkWorld (server w) (sent w) (heap w) (console w ++ [ev])).

(** [requests.post(url, json=payload, timeout=timeout)] *)
Definition requests_post (url : string) (payload : json) (timeout : Z)
  : M Response :=
  fun w =>
    let req := mkRequest url payload timeout in
    let w' := mkWorld (server w) (sent w ++ [req]) (heap w) (console w) in
    match server w (length (sent w)) req with
    | post_raises e => (Raise e, w')
    | post_returns r => (Return r, w')
    end.

(** ** The program *)

Definition SYSTEM_PROMPT : string :=
  "You are TeachMeFinance, a *financial education* assistant.
Your goals:
- Explain personal-finance concepts clearly (budgeting, saving, emergency funds, diversification, index funds, retirement accounts, risk tolerance).
- Be concise, structured, and beginner-friendly; use examples or rules of thumb where helpful.
- You are **not** a financial advisor; avoid personalized investment advice or fiduciary recommendations.
- If the user asks for individualized advice, provide general education and suggest consulting a licensed professional for personal recommendations.
- Avoid giving tax/legal advice; you may explain general concepts with disclaimers.
- When math is needed, show steps briefly and state assumptions.
".

(** The dict [payload] of [chat_completion_ollama]. *)
Definition payload (model : string) (messages : list Message)
           (temperature : float) (max_tokens : Z) : json :=
  JDict [("model", JStr model);
         ("messages", JList (map Message_json messages));
         ("stream", JBool false);
         ("options", JDict [("temperature", JFloat temperature);
                            ("num_predict", JInt max_tokens)])].

(** Lines 48-55: the answer text of a parsed response body. *)
Definition extract_answer (data : json) : result string :=
  has_message <- py_contains "message" data ;;
  has_content <- (if has_message : bool
                  then message <- py_getitem data "message" ;;
                       py_contains "content" message
                  else Return false) ;;
  if has_content : bool then
    message <- py_getitem data "message" ;;
    content <- py_getitem message "content" ;;
    py_strip content
  else
    has_response <- py_contains "response" data ;;
    if has_response : bool then
      response <- py_getitem data "response" ;;
      Return (Text.strip (py_str response))
    else Raise SchemaError.

(** [messages] is the caller's list object; the payload refers to it and
    [requests.post] serialises it, with nothing in between. *)
Definition chat_completion_ollama (model : string) (messages : ref)
           (temperature : float) (max_tokens : Z) (base_url : string)
  : M string :=
  let url := base_url +:+ "/api/chat" in
  transcript <- deref messages ;;
  resp <- try_except_RequestException
            (resp <- requests_post url
                       (payload model transcript temperature max_tokens) 120 ;;
             match raise_for_status resp with
             | Some e => raise e
             | None => ret resp
             end)
            (fun e => raise (TransportError e)) ;;
  data <- lift (resp_json resp) ;;
  lift (extract_answer data).

Definition banner (model : string) : M unit :=
  console_print (PrintBanner model).

Definition system_message : Message := mkMessage "system" SYSTEM_PROMPT.

(** Where the interactive loop stands once the inputs typed so far are
    consumed: blocked in [Prompt.ask], or left through [break]. *)
Inductive session : Type := AwaitingInput | Ended.

(** [q.lower() in {"exit", "quit"}] *)
Definition is_exit (q : string) : bool :=
  let l := Text.lower q in
  String.eqb l "exit" || String.eqb l "quit".

(** The body of [while True:] run on the successive values returned by
    [Prompt.ask]. *)
Fixpoint chat_loop (model : string) (temperature : float) (max_tokens : Z)
         (history : ref) (inputs : list string) : M session :=
  match inputs with
  | [] => ret AwaitingInput
  | raw :: inputs' =>
      let q := Text.strip raw in
      if is_exit q then ret Ended
      else
        append history (mkMessage "user" q) ;;;
        r <- try_except (chat_completion_ollama model history temperature
                           max_tokens DEFAULT_OLLAMA_URL) ;;
        match r with
        | Raise e =>
            console_print (PrintError e) ;;;
            chat_loop model temperature max_tokens history inputs'
        | Return answer =>
            append history (mkMessage "assistant" answer) ;;;
            console_print (PrintPanel answer) ;;;
            chat_loop model temperature max_tokens history inputs'
        end
  end.

Definition chat (model : string) (temperature : float) (max_tokens : Z)
           (inputs : list string) : M session :=
  banner model ;;;
  history <- alloc [system_message] ;;
  chat_loop model temperature max_tokens history inputs.

Definition ask (question : string) (model : string) (temperature : float)
           (max_tokens : Z) : M unit :=
  messages <- alloc [system_message; mkMessage "user" question] ;;
  r <- try_except (chat_completion_ollama model messages temperature
                     max_tokens DEFAULT_OLLAMA_URL) ;;
  match r with
  | Raise e =>
      console_print (PrintError e) ;;;
      raise (Exit 1)
  | Return answer => console_print (PrintText answer)
  end.

(** The exit status of the process for a command that ended with [r]:
    0 on return, the code of [typer.Exit], 1 for an uncaught exception. *)
Definition exit_status {A : Type} (r : result A) : Z :=
  match r with
  | Return _ => 0
  | Raise (Exit code) => code
  | Raise _ => 1
  end.

End Model.

Arguments JNull {float}.
Arguments JBool {float} b.
Arguments JInt {float} z.
Arguments JFloat {float} f.
Arguments JStr {float} s.
Arguments JList {float} l.
Arguments JDict {float} d.
Arguments dict_get {float} d key.
Arguments py_contains {float} needle v.
Arguments py_getitem {float} v key.
Arguments py_strip {float} v.
Arguments mkRequest {float} req_url req_json req_timeout.
Arguments req_url {float} h.
Arguments req_json {float} h.
Arguments req_timeout {float} h.
Arguments mkResponse {float} raise_for_status resp_json.
Arguments raise_for_status {float} r.
Arguments resp_json {float} r.
Arguments post_raises {float} e.
Arguments post_returns {float} r.
Arguments mkWorld {float} server sent heap console.
Arguments server {float} w n req.
Arguments sent {float} w.
Arguments heap {float} w.
Arguments console {float} w.
Arguments payload {float} model messages temperature max_tokens.
Arguments Message_json {float} m.
Arguments append {float} r m w.
Arguments alloc {float} l w.
Arguments deref {float} r w.
Arguments console_print {float} markup_fails ev w.
Arguments banner {float} markup_fails model w.
Arguments py_repr {float} float_repr str_repr v.
Arguments py_str {float} float_repr str_repr v.
Arguments extract_answer {float} float_repr str_repr data.
Arguments chat_completion_ollama {float} float_repr str_repr
  model messages temperature max_tokens base_url.
Arguments chat_loop {float} float_repr str_repr os_environ markup_fails
  model temperature max_tokens history inputs.
Arguments chat {float} float_repr str_repr os_environ markup_fails
  model temperature max_tokens inputs.
Arguments ask {float} float_repr str_repr os_environ markup_fails
  question model temperature max_tokens.

(** ** A concrete Python runtime for the examples *)

Module Demo.

(** In the examples a float is written as the text Python prints for it:
    the default temperature is ["0.4"]. *)
Definition float : Type := string.
Definition float_repr (f : float) : string := f.

Definition hex_digit (n : nat) : ascii :=
  nth n ["0"; "1"; "2"; "3"; "4"; "5"; "6"; "7"; "8"; "9";
         "a"; "b"; "c"; "d"; "e"; "f"]%char "0"%char.

Definition double_quote : ascii := ascii_of_nat 34.
Definition backslash : ascii := ascii_of_nat 92.

(** One character of [repr(s)] inside the quote [quote]
    ([unicode_repr] of CPython, code points below 256). *)
Definition repr_char (quote c : ascii) : string :=
  let n := nat_of_ascii c in
  if Ascii.eqb c quote || Ascii.eqb c backslash
  then String backslash (String c "")
  else if (n =? 9)%nat then String backslash "t"
  else if (n =? 10)%nat then String backslash "n"
  else if (n =? 13)%nat then String backslash "r"
  else if ((n <? 32) || (n =? 127) || ((128 <=? n) && (n <=? 160))
           || (n =? 173))%nat
  then String backslash
         (String "x" (String (hex_digit (n / 16)) (String (hex_digit (n mod 16)) "")))
  else String c "".

Definition str_repr (s : string) : string :=
  let quote :=
    if Text.contains "'" s && negb (Text.contains (String double_quote "") s)
    then double_quote else "'"%char in
  String quote
         (String.concat "" (map (repr_char quote) (list_ascii_of_string s))
          +:+ String quote "").

(** rich's markup, as far as [console.print] can fail on it. A tag is "["
    followed by one of a-z, "#", "/", "@" and the shortest text without "["
    up to "]"; an odd number of backslashes before it escapes it. An opening
    tag is pushed on a stack; "[/]" pops the stack and "[/name]" removes the
    nearest open tag of that name; either fails when there is nothing to
    remove. Style names are compared after [strip] and [lower] (rich also
    identifies different spellings of one style). *)
Definition tag_start (c : ascii) : bool :=
  let n := nat_of_ascii c in
  (((97 <=? n) && (n <=? 122)) || (n =? 35) || (n =? 47) || (n =? 64))%nat.

Inductive scan_mode : Type :=
| InText (backslashes : nat)
| AfterBracket (escaped : bool)
| InTag (escaped : bool) (body : string) (backslashes : nat).

Fixpoint before_equals (s : string) : string :=
  match s with
  | EmptyString => EmptyString
  | String c s' => if Ascii.eqb c "=" then EmptyString
                   else String c (before_equals s')
  end.

Fixpoint pop_style (name : string) (stack : list string) : option (list string) :=
  match stack with
  | [] => None
  | top :: rest =>
      if String.eqb top name then Some rest
      else match pop_style name rest with
           | Some rest' => Some (top :: rest')
           | None => None
           end
  end.

(** The stack after the tag [body], [None] for a [MarkupError]. *)
Definition apply_tag (body : string) (stack : list string) : option (list string) :=
  match before_equals body with
  | String "/" closing =>
      let style_name := Text.strip closing in
      if String.eqb style_name ""
      then match stack with
           | [] => None
           | _ :: rest => Some rest
           end
      else pop_style (Text.lower style_name) stack
  | name => Some (Text.lower (Text.strip name) :: stack)
  end.

Fixpoint scan (s : string) (mode : scan_mode) (stack : list string) : bool :=
  match s with
  | EmptyString => false
  | String c s' =>
      match mode with
      | InText bs =>
          if Ascii.eqb c "[" then scan s' (AfterBracket (Nat.odd bs)) stack
          else if Ascii.eqb c backslash then scan s' (InText (S bs)) stack
          else scan s' (InText 0) stack
      | AfterBracket escaped =>
          if tag_start c then scan s' (InTag escaped (String c "") 0) stack
          else if Ascii.eqb c "[" then scan s' (AfterBracket false) stack
          else if Ascii.eqb c backslash then scan s' (InText 1) stack
          else scan s' (InText 0) stack
      | InTag escaped body bs =>
          if Ascii.eqb c "]" then
            if escaped then scan s' (InText 0) stack
            else match apply_tag body stack with
                 | None => true
                 | Some stack' => scan s' (InText 0) stack'
                 end
          else if Ascii.eqb c "[" then scan s' (AfterBracket (Nat.odd bs)) stack
          else scan s' (InTag escaped (body +:+ String c "")
                              (if Ascii.eqb c backslash then S bs else 0))
                    stack
      end
  end.

(** Rendering the markup text raises [MarkupError]. *)
Definition rich_fails (markup : string) : bool := scan markup (InText 0) [].

(** [str(e)]; the messages CPython and rich give the last three classes are
    not modelled (those of the errors met here hold no bracket). *)
Definition exn_text (e : exn) : string :=
  match e with
  | RequestException descr => descr
  | RuntimeError msg => msg
  | KeyError key => str_repr key
  | Exit code => Text.of_int code
  | OtherException _ descr => descr
  | TypeError | AttributeError | MarkupError => ""
  end.

(** The texts [chat] and [ask] hand to rich. The dashes of the banner are
    outside the modelled range of characters and hold no bracket; they are
    written "-" here. *)
Definition markup_fails (ev : console_event) : bool :=
  match ev with
  | PrintBanner model =>
      rich_fails ("[bold magenta]TeachMeFinance[/] - LLM-only (model: "
                  +:+ model +:+ ") - type 'exit' to quit")
  | PrintError e => rich_fails ("[red]Error:[/] " +:+ exn_text e)
  | PrintPanel answer | PrintText answer => rich_fails answer
  end.

(** No [OLLAMA_URL] in the environment. *)
Definition os_environ : list (string * string) := [].

(** An environment that names another server. *)
Definition remote_environ : list (string * string) :=
  [("HOME", "/root"); ("OLLAMA_URL", "http://gpu-box:11434")].

Definition ok (body : json float) : post_outcome float :=
  post_returns (mkResponse None (Return body)).

(** An HTTP layer that gives every request the same outcome. *)
Definition always (o : post_outcome float) : world float :=
  mkWorld (fun _ _ => o) [] [] [].

(** An HTTP layer that answers the [n]-th request with the [n]-th outcome
    of [script] and refuses the connection afterwards. *)
Definition scripted (script : list (post_outcome float)) : world float :=
  mkWorld (fun n _ => nth n script
                        (post_raises (RequestException "Connection refused")))
          [] [] [].

(** The world [w] with a two-message transcript as its only list object. *)
Definition with_transcript (w : world float) : world float :=
  mkWorld (server w) (sent w) [[system_message; mkMessage "user" "hi"]]
          (console w).

(** One call of the bridge with the defaults of the command line, on the
    transcript of [with_transcript]. *)
Definition run_bridge (w : world float) : result string * world float :=
  chat_completion_ollama float_repr str_repr "qwen2.5:7b-instruct" 0 "0.4" 512
                         "http://localhost:11434" (with_transcript w).

(** Response bodies used below. *)
Definition both_shapes : json float :=
  JDict [("message", JDict [("role", JStr "assistant"); ("content", JStr "  X  ")]);
         ("response", JStr "Y")].
Definition only_response : json float := JDict [("response", JStr " Y ")].
Definition neither_shape : json float := JDict [("foo", JStr "bar")].
Definition numeric_content : json float :=
  JDict [("message", JDict [("content", JInt 5)])].
Definition numeric_message : json float :=
  JDict [("message", JInt 5); ("response", JStr "Y")].
Definition null_message : json float := JDict [("message", JNull)].
Definition text_message : json float :=
  JDict [("message", JStr "hello"); ("response", JStr " Y ")].
Definition numeric_response : json float := JDict [("response", JInt 42)].

(** A server that answers the first request and refuses the later ones. *)
Definition one_answer : world float :=
  scripted [ok (JDict [("message", JDict [("content", JStr " A1 ")])])].

(** A server whose first answer starts with a closing tag, as models
    trained on an instruction template emit at times. *)
Definition tagged_answer : world float :=
  scripted [ok (JDict [("message",
                        JDict [("content", JStr "[/INST] An index fund.")])])].


Definition run_chat (inputs : list string) (w : world float)
  : result session * world float :=
  chat float_repr str_repr os_environ markup_fails
       "qwen2.5:7b-instruct" "0.4" 512 inputs w.

Definition run_ask (question : string) (w : world float)
  : result unit * world float :=
  ask float_repr str_repr os_environ markup_fails question
      "qwen2.5:7b-instruct" "0.4" 512 w.

End Demo.

(** ** Vocabulary of the specification *)

(** Text made of whitespace only. *)
Fixpoint all_space (s : string) : bool :=
  match s with
  | EmptyString => true
  | String c s' => Text.isspace c && all_space s'
  end.

Definition starts_with_space (s : string) : bool :=
  match s with
  | EmptyString => false
  | String c _ => Text.isspace c
  end.

Fixpoint ends_with_space (s : string) : bool :=
  match s with
  | EmptyString => false
  | String c EmptyString => Text.isspace c
  | String _ s' => ends_with_space s'
  end.

(** [t] is [s] with leading and trailing whitespace trimmed: [s] is [t]
    between two runs of whitespace, and [t] neither starts nor ends with
    whitespace. *)
Definition trimmed (s t : string) : Prop :=
  (exists l r, s = l +:+ t +:+ r /\ all_space l = true /\ all_space r = true)
  /\ starts_with_space t = false
  /\ ends_with_space t = false.

(** The inputs the loop body runs on: those typed before the first one that
    ends the session. *)
Fixpoint processed (inputs : list string) : list string :=
  match inputs with
  | [] => []
  | raw :: inputs' =>
      if is_exit (Text.strip raw) then [] else raw :: processed inputs'
  end.

(** What one exchange adds to the history when the bridge call made for the
    input [raw] ended with [r]. *)
Definition exchange_messages (raw : string) (r : result string) : list Message :=
  mkMessage "user" (Text.strip raw)
  :: match r with
     | Return answer => [mkMessage "assistant" answer]
     | Raise _ => []
     end.

(** What one exchange prints. *)
Definition exchange_event (r : result string) : console_event :=
  match r with
  | Return answer => PrintPanel answer
  | Raise e => PrintError e
  end.

(** What the single-shot command prints for the outcome [r] of its bridge
    call. *)
Definition ask_event (r : result string) : console_event :=
  match r with
  | Return answer => PrintText answer
  | Raise e => PrintError e
  end.

(** What a [console.print] of [ev] leaves on the console. *)
Definition shown (markup_fails : console_event -> bool) (ev : console_event)
  : list console_event :=
  if markup_fails ev then [] else [ev].

(** The messages a sequence of exchanges adds to the history. *)
Definition history_of (exchanges : list (string * result string)) : list Message :=
  flat_map (fun x => exchange_messages (fst x) (snd x)) exchanges.

(** The contents of the messages of role [r], in order. *)
Definition texts_of (r : string) (t : list Message) : list string :=
  map content (filter (fun m => String.eqb (role m) r) t).

(** The answers shown in panels, in order. *)
Definition panel_texts (events : list console_event) : list string :=
  flat_map (fun ev => match ev with PrintPanel a => [a] | _ => [] end) events.

(** The console event is the output of one exchange, not the banner. *)
Definition is_exchange_event (ev : console_event) : Prop :=
  match ev with
  | PrintPanel _ | PrintError _ => True
  | PrintBanner _ | PrintText _ => False
  end.

(** The text neither starts nor ends with whitespace. *)
Definition no_surrounding_space (s : string) : Prop :=
  starts_with_space s = false /\ ends_with_space s = false.

(** [l1] is an initial segment of [l2]. *)
Definition prefix_of {A : Type} (l1 l2 : list A) : Prop :=
  exists suffix, l2 = l1 ++ suffix.

(** [os.environ] maps each name to one value. *)
Definition environ_ok (environ : list (string * string)) : Prop :=
  NoDup (map fst environ).

Section Vocabulary.

Context {float : Type}.
Variable float_repr : float -> string.
Variable str_repr : string -> string.
Variable os_environ : list (string * string).
Variable markup_fails : console_event -> bool.

(** The request one call of the bridge issues. *)
Definition bridge_request (model : string) (transcript : list Message)
           (temperature : float) (max_tokens : Z) (base_url : string)
  : http_request float :=
  mkRequest (base_url +:+ "/api/chat")
            (payload model transcript temperature max_tokens) 120.

(** The world once [req] has been handed to the HTTP layer. *)
Definition log_request (w : world float) (req : http_request float)
  : world float :=
  mkWorld (server w) (sent w ++ [req]) (heap w) (console w).

(** What a call of the bridge yields when the HTTP layer answers [o]. *)
Definition bridge_result (o : post_outcome float) : result string :=
  match o with
  | post_raises (RequestException descr) => Raise (TransportError descr)
  | post_raises e => Raise e
  | post_returns r =>
      match raise_for_status r with
      | Some (RequestException descr) => Raise (TransportError descr)
      | Some e => Raise e
      | None =>
          match resp_json r with
          | Return data => extract_answer float_repr str_repr data
          | Raise e => Raise e
          end
      end
  end.

(** The HTTP exchange succeeded and the body parsed to [data]. *)
Definition http_success (o : post_outcome float) (data : json float) : Prop :=
  exists r, o = post_returns r
            /\ raise_for_status r = None
            /\ resp_json r = Return data.

(** The HTTP exchange failed in transport with description [cause]: the
    POST or the status check raised a [RequestException]. *)
Definition transport_failure (o : post_outcome float) (cause : string) : Prop :=
  o = post_raises (RequestException cause)
  \/ exists r, o = post_returns r
               /\ raise_for_status r = Some (RequestException cause).

(** The object [d] has no field "message" with a sub-field "content":
    "message" is absent, or it is an object without "content". *)
Definition no_message_content (d : list (string * json float)) : Prop :=
  dict_get d "message" = None
  \/ exists m, dict_get d "message" = Some (JDict m)
               /\ dict_get m "content" = None.

(** Equality up to case. *)
Definition caseless_eq (a b : string) : Prop := Text.lower a = Text.lower b.

(** The input ends the session: trimmed, it is "exit" or "quit" up to
    case. *)
Definition terminal_input (raw : string) : Prop :=
  caseless_eq (Text.strip raw) "exit" \/ caseless_eq (Text.strip raw) "quit".

(** The transcript invariant: the system message first, and nowhere else. *)
Definition transcript_ok (t : list Message) : Prop :=
  exists rest, t = system_message :: rest
               /\ Forall (fun m => role m <> "system") rest.

(** The list object behind [r]. *)
Definition transcript_at (w : world float) (r : ref) : list Message :=
  nth r (heap w) [].

(** Requests of the bridge that each carry a transcript satisfying the
    invariant. *)
Definition requests_ok (model : string) (temperature : float)
           (max_tokens : Z) (base_url : string)
           (reqs : list (http_request float)) : Prop :=
  Forall (fun req => exists t,
              transcript_ok t
              /\ req = bridge_request model t temperature max_tokens base_url)
         reqs.

(** The extraction policy as the specification words it, without typing
    conditions: whenever the body has "message" with "content", the call
    returns; and whenever it has no such pair but has "response", the call
    returns the string form of that value stripped. *)
Definition extraction_claim : Prop :=
  forall model messages temperature max_tokens base_url (w : world float) d,
    http_success (server w (length (sent w))
                    (bridge_request model (transcript_at w messages)
                                    temperature max_tokens base_url))
                 (JDict d) ->
    let outcome := fst (chat_completion_ollama float_repr str_repr model
                          messages temperature max_tokens base_url w) in
    (forall m c,
        dict_get d "message" = Some m ->
        py_getitem m "content" = Return c ->
        exists answer, outcome = Return answer)
    /\ (forall v,
           (forall m c, dict_get d "message" = Some m ->
                        py_getitem m "content" <> Return c) ->
           dict_get d "response" = Some v ->
           outcome = Return (Text.strip (py_str float_repr str_repr v))).

(** The error contract as the specification words it: every failure of the
    bridge is a transport error or the schema error. *)
Definition error_kinds_claim : Prop :=
  forall model messages temperature max_tokens base_url (w : world float) e,
    fst (chat_completion_ollama float_repr str_repr model messages temperature
           max_tokens base_url w) = Raise e ->
    (exists cause, e = TransportError cause) \/ e = SchemaError.

(** The request was issued for a user turn of the final history [final]:
    its messages end with a user message and are an initial segment of
    [final]. *)
Definition asks_user_turn (model : string) (temperature : float)
           (max_tokens : Z) (base_url : string) (final : list Message)
           (req : http_request float) : Prop :=
  exists t q,
    req = bridge_request model (t ++ [mkMessage "user" q])
                         temperature max_tokens base_url
    /\ prefix_of (t ++ [mkMessage "user" q]) final.

(** The world in which the loop of [chat] starts: banner printed, the
    history allocated as the newest list object. *)
Definition session_start (model : string) (w : world float) : world float :=
  mkWorld (server w) (sent w) (heap w ++ [[system_message]])
          (console w ++ [PrintBanner model]).

(** The world after the loop body has run on the input [raw]: the request
    [req] is logged, the messages of the exchange with outcome [r] are in the
    history, and its panel or error line is on the console when [printed]. *)
Definition after_exchange (w : world float) (history : ref) (raw : string)
           (req : http_request float) (r : result string) (printed : bool)
  : world float :=
  mkWorld (server w) (sent w ++ [req])
          (update (heap w) history (fun l => l ++ exchange_messages raw r))
          (if printed then console w ++ [exchange_event r] else console w).

(** The world after the single-shot command: its transcript [messages] is
    allocated, the request [req] is logged, and the answer or error line for
    the outcome [r] is on the console when [printed]. *)
Definition after_ask (w : world float) (messages : list Message)
           (req : http_request float) (r : result string) (printed : bool)
  : world float :=
  mkWorld (server w) (sent w ++ [req]) (heap w ++ [messages])
          (if printed then console w ++ [ask_event r] else console w).

(** What the bridge yields for the requests [reqs] when they are the
    [n]-th, [n+1]-th, ... requests handed to the HTTP layer [srv]. *)
Fixpoint answers_from (srv : nat -> http_request float -> post_outcome float)
         (n : nat) (reqs : list (http_request float)) : list (result string) :=
  match reqs with
  | [] => []
  | req :: reqs' => bridge_result (srv n req) :: answers_from srv (S n) reqs'
  end.



End Vocabulary.

(** ** Properties *)

(** *** [strip] trims *)

Lemma lstrip_split s :
  exists l, s = l +:+ Text.lstrip s
            /\ all_space l = true
            /\ starts_with_space (Text.lstrip s) = false.
Proof.
  induction s as [| c s (l & Hs & Hl & Hstart)]; [now exists "" |].
  cbn. destruct (Text.isspace c) eqn:Hc.
  - exists (String c l). cbn. rewrite Hc, Hl. repeat split; [congruence | assumption].
  - exists "". cbn. now rewrite Hc.
Qed.

Lemma rstrip_split s :
  exists r, s = Text.rstrip s +:+ r
            /\ all_space r = true
            /\ ends_with_space (Text.rstrip s) = false.
Proof.
  induction s as [| c s (r & Hs & Hr & Hend)]; [now exists "" |].
  cbn. destruct (Text.rstrip s) as [| c' t] eqn:Ht.
  - destruct (Text.isspace c) eqn:Hc.
    + exists (String c r). cbn in *. rewrite Hc, Hr. repeat split. congruence.
    + exists r. cbn in *. rewrite Hc. repeat split; [congruence | assumption].
  - exists r. repeat split; [cbn in *; congruence | assumption | exact Hend].
Qed.

Lemma ends_with_space_app l t :
  t <> "" -> ends_with_space (l +:+ t) = ends_with_space t.
Proof.
  intros Ht. induction l as [| c l IH]; [reflexivity |].
  cbn. rewrite IH. destruct (l +:+ t) eqn:Hlt; [| reflexivity].
  destruct l; cbn in Hlt; [contradiction | discriminate].
Qed.

Lemma append_assoc (a b c : string) : (a +:+ b) +:+ c = a +:+ b +:+ c.
Proof. induction a as [| x a IH]; cbn; [reflexivity | now rewrite IH]. Qed.

(** [Text.strip] meets the specification's "trimmed". *)
Lemma strip_trimmed s : trimmed s (Text.strip s).
Proof.
  unfold Text.strip.
  destruct (rstrip_split s) as (r & Hs & Hr & Hend).
  destruct (lstrip_split (Text.rstrip s)) as (l & Hl & Hlsp & Hstart).
  repeat split.
  - exists l, r. rewrite <- append_assoc, <- Hl. auto.
  - exact Hstart.
  - destruct (Text.lstrip (Text.rstrip s)) as [| c t] eqn:Ht; [reflexivity |].
    rewrite <- Ht in *. rewrite Hl in Hend.
    rewrite ends_with_space_app in Hend; [exact Hend |].
    rewrite Ht. discriminate.
Qed.

Lemma strip_idempotent s : Text.strip (Text.strip s) = Text.strip s.
Proof.
  destruct (strip_trimmed s) as (_ & Hstart & Hend).
  set (t := Text.strip s) in *. clearbody t.
  assert (Hr : Text.rstrip t = t).
  { clear Hstart. induction t as [| c t IH]; [reflexivity |].
    cbn. destruct t as [| c' t'].
    - cbn in *. now rewrite Hend.
    - rewrite IH by exact Hend. reflexivity. }
  unfold Text.strip. rewrite Hr.
  destruct t as [| c t]; [reflexivity |]. cbn in *. now rewrite Hstart.
Qed.

(** *** [strip], [lower] and the exit test *)

Lemma rstrip_all_space r : all_space r = true -> Text.rstrip r = "".
Proof.
  induction r as [| c r IH]; [reflexivity |]. cbn.
  intros H. apply andb_true_iff in H as [Hc Hr]. now rewrite IH, Hc.
Qed.

Lemma rstrip_app_space s r :
  all_space r = true -> Text.rstrip (s +:+ r) = Text.rstrip s.
Proof.
  intros Hr. induction s as [| c s IH]; cbn.
  - now apply rstrip_all_space.
  - now rewrite IH.
Qed.

Lemma lstrip_space_app l s :
  all_space l = true -> Text.lstrip (l +:+ s) = Text.lstrip s.
Proof.
  induction l as [| c l IH]; [reflexivity |]. cbn.
  intros H. apply andb_true_iff in H as [Hc Hl]. rewrite Hc. now apply IH.
Qed.

Lemma rstrip_space_app l s :
  all_space l = true ->
  Text.rstrip (l +:+ s)
  = match Text.rstrip s with
    | EmptyString => EmptyString
    | t => l +:+ t
    end.
Proof.
  induction l as [| c l IH]; cbn.
  - intros _. now destruct (Text.rstrip s).
  - intros H. apply andb_true_iff in H as [Hc Hl]. rewrite (IH Hl).
    destruct (Text.rstrip s) as [| x t]; [now rewrite Hc |].
    now destruct l.
Qed.

Lemma strip_pad l s r :
  all_space l = true -> all_space r = true ->
  Text.strip (l +:+ s +:+ r) = Text.strip s.
Proof.
  intros Hl Hr. unfold Text.strip.
  rewrite (rstrip_space_app l _ Hl), (rstrip_app_space s r Hr).
  destruct (Text.rstrip s) as [| x t]; [reflexivity |].
  now apply lstrip_space_app.
Qed.

Lemma isspace_lower_char c : Text.isspace (Text.lower_char c) = Text.isspace c.
Proof.
  destruct c as [[] [] [] [] [] [] [] []]; reflexivity.
Qed.

Lemma lower_lstrip s : Text.lower (Text.lstrip s) = Text.lstrip (Text.lower s).
Proof.
  induction s as [| c s IH]; [reflexivity |]. cbn.
  rewrite isspace_lower_char. now destruct (Text.isspace c).
Qed.

Lemma lower_rstrip s : Text.lower (Text.rstrip s) = Text.rstrip (Text.lower s).
Proof.
  induction s as [| c s IH]; [reflexivity |]. cbn.
  rewrite <- IH, isspace_lower_char.
  destruct (Text.rstrip s); cbn; [now destruct (Text.isspace c) | reflexivity].
Qed.

Lemma lower_strip s : Text.lower (Text.strip s) = Text.strip (Text.lower s).
Proof. unfold Text.strip. now rewrite lower_lstrip, lower_rstrip. Qed.

(** X16. The exit test of the loop sees neither surrounding whitespace nor
    letter case: an input padded with whitespace on both sides ends the
    session exactly when any input equal to it up to case does. *)
Theorem exit_test_ignores_padding_and_case l r raw raw' :
  all_space l = true ->
  all_space r = true ->
  Text.lower raw = Text.lower raw' ->
  is_exit (Text.strip (l +:+ raw +:+ r)) = is_exit (Text.strip raw').
Proof.
  intros Hl Hr Hcase. rewrite (strip_pad l raw r Hl Hr).
  unfold is_exit. now rewrite !lower_strip, Hcase.
Qed.

Section Properties.

Context {float : Type}.
Variable float_repr : float -> string.
Variable str_repr : string -> string.
Variable os_environ : list (string * string).
Variable markup_fails : console_event -> bool.

Local Abbreviation bridge := (chat_completion_ollama float_repr str_repr).
Local Abbreviation result_of := (bridge_result float_repr str_repr).
Local Abbreviation extract := (extract_answer float_repr str_repr).
Local Abbreviation loop :=
  (chat_loop float_repr str_repr os_environ markup_fails).
Local Abbreviation default_url := (DEFAULT_OLLAMA_URL os_environ).

(** *** The bridge, as a function of the HTTP layer's answer *)

Lemma bridge_run model messages temperature max_tokens base_url w :
  let req := bridge_request model (transcript_at w messages)
                            temperature max_tokens base_url in
  bridge model messages temperature max_tokens base_url w
  = (result_of (server w (length (sent w)) req), log_request w req).
Proof.
  intros req. unfold chat_completion_ollama, try_except_RequestException,
    requests_post, deref, lift, raise. cbn.
  fold (transcript_at w messages). fold (bridge_request model (transcript_at w messages) temperature max_tokens base_url).
  fold req.
  destruct (server w (length (sent w)) req) as [e | r]; cbn.
  - destruct e; reflexivity.
  - destruct (raise_for_status r) as [e |]; cbn.
    + destruct e; reflexivity.
    + destruct (resp_json r); reflexivity.
Qed.

Lemma bridge_outcome model messages temperature max_tokens base_url w :
  fst (bridge model messages temperature max_tokens base_url w)
  = result_of (server w (length (sent w))
                 (bridge_request model (transcript_at w messages)
                                 temperature max_tokens base_url)).
Proof. now rewrite bridge_run. Qed.

Lemma result_of_success o data :
  http_success o data -> result_of o = extract data.
Proof.
  intros (r & -> & Hstatus & Hjson). cbn. now rewrite Hstatus, Hjson.
Qed.

Lemma result_of_transport_failure o cause :
  transport_failure o cause -> result_of o = Raise (TransportError cause).
Proof.
  intros [-> | (r & -> & Hstatus)]; cbn; [reflexivity | now rewrite Hstatus].
Qed.

(** *** The extraction policy on a JSON object *)

Lemma extract_message_content d m v :
  dict_get d "message" = Some (JDict m) ->
  dict_get m "content" = Some v ->
  extract (JDict d) = py_strip v.
Proof.
  intros Hm Hc. unfold extract_answer. cbn. rewrite Hm. cbn. now rewrite Hc.
Qed.

Lemma extract_no_message_content d :
  no_message_content d ->
  extract (JDict d)
  = match dict_get d "response" with
    | Some v => Return (Text.strip (py_str float_repr str_repr v))
    | None => Raise SchemaError
    end.
Proof.
  intros [Hm | (m & Hm & Hc)]; unfold extract_answer; cbn; rewrite Hm; cbn.
  - now destruct (dict_get d "response").
  - rewrite Hc. cbn. now destruct (dict_get d "response").
Qed.

Lemma TransportError_neq_SchemaError cause : TransportError cause <> SchemaError.
Proof. unfold TransportError, SchemaError. cbn. congruence. Qed.

(** *** Claims about the bridge *)

(** C1, amended. On an HTTP success whose body is a JSON object: when the
    object has a field "message" that is an object with a string sub-field
    "content", the bridge returns that content with leading and trailing
    whitespace trimmed, whatever else the object holds (so this shape has
    priority over "response"); otherwise, when "message" is absent or is an
    object without "content" and the body has a field "response", the bridge
    returns [str] of that value, trimmed; and when "response" is absent too,
    the call fails with the schema error. *)
Theorem extraction_policy model messages temperature max_tokens base_url w d :
  http_success (server w (length (sent w))
                  (bridge_request model (transcript_at w messages)
                                  temperature max_tokens base_url))
               (JDict d) ->
  let answer := fst (bridge model messages temperature max_tokens base_url w) in
  (forall m s,
      dict_get d "message" = Some (JDict m) ->
      dict_get m "content" = Some (JStr s) ->
      answer = Return (Text.strip s) /\ trimmed s (Text.strip s))
  /\ (forall v,
         no_message_content d ->
         dict_get d "response" = Some v ->
         let text := py_str float_repr str_repr v in
         answer = Return (Text.strip text) /\ trimmed text (Text.strip text))
  /\ (no_message_content d ->
      dict_get d "response" = None ->
      answer = Raise SchemaError).
Proof.
  intros Hok answer. subst answer. rewrite bridge_outcome.
  rewrite (result_of_success _ _ Hok). split; [| split].
  - intros m s Hm Hc. rewrite (extract_message_content _ _ _ Hm Hc).
    split; [reflexivity | apply strip_trimmed].
  - intros v Hno Hr text. rewrite (extract_no_message_content _ Hno), Hr.
    split; [reflexivity | apply strip_trimmed].
  - intros Hno Hr. now rewrite (extract_no_message_content _ Hno), Hr.
Qed.

(** C2, amended. The bridge raises [RuntimeError("Ollama request failed:
    <cause>")] whenever the POST or the status check raises a
    [RequestException] with description <cause>, and
    [RuntimeError("Unexpected Ollama response schema")] on an HTTP success
    whose body is a JSON object with neither recognized shape; the two differ
    for every cause. Nothing is swallowed: an exception of the HTTP layer
    either propagates as it is or is the [RequestException] re-raised as the
    former, and on an HTTP success the call ends exactly as the extraction
    does, exceptions included. *)
Theorem bridge_errors model messages temperature max_tokens base_url w :
  let o := server w (length (sent w))
             (bridge_request model (transcript_at w messages)
                             temperature max_tokens base_url) in
  let outcome := fst (bridge model messages temperature max_tokens base_url w) in
  (forall cause,
      transport_failure o cause -> outcome = Raise (TransportError cause))
  /\ (forall d,
         http_success o (JDict d) ->
         no_message_content d ->
         dict_get d "response" = None ->
         outcome = Raise SchemaError)
  /\ (forall cause, TransportError cause <> SchemaError)
  /\ (forall e, o = post_raises e ->
                outcome = Raise e
                \/ exists cause, e = RequestException cause
                                 /\ outcome = Raise (TransportError cause))
  /\ (forall r e, o = post_returns r -> raise_for_status r = Some e ->
                  outcome = Raise e
                  \/ exists cause, e = RequestException cause
                                   /\ outcome = Raise (TransportError cause))
  /\ (forall r e, o = post_returns r -> raise_for_status r = None ->
                  resp_json r = Raise e -> outcome = Raise e)
  /\ (forall data, http_success o data -> outcome = extract data).
Proof.
  intros o outcome. subst outcome. rewrite bridge_outcome. fold o.
  repeat split.
  - apply result_of_transport_failure.
  - intros d Hok Hno Hr.
    now rewrite (result_of_success _ _ Hok), (extract_no_message_content _ Hno), Hr.
  - apply TransportError_neq_SchemaError.
  - intros e ->. destruct e; cbn; eauto.
  - intros r e -> He. cbn. rewrite He. destruct e; eauto.
  - intros r e -> Hs He. cbn. now rewrite Hs, He.
  - apply result_of_success.
Qed.

(** C7. Every call of the bridge issues exactly one request, whatever its
    outcome: a POST to [base_url + "/api/chat"] with timeout 120 and the JSON
    body [{model, messages, stream: false, options: {temperature,
    num_predict: max_tokens}}], where [messages] is the transcript and
    [temperature] and [max_tokens] are the arguments, unchanged. *)
Theorem bridge_issues_one_request model messages temperature max_tokens base_url w :
  sent (snd (bridge model messages temperature max_tokens base_url w))
  = sent w
    ++ [mkRequest
          (base_url +:+ "/api/chat")
          (JDict [("model", JStr model);
                  ("messages", JList (map Message_json (transcript_at w messages)));
                  ("stream", JBool false);
                  ("options", JDict [("temperature", JFloat temperature);
                                     ("num_predict", JInt max_tokens)])])
          120].
Proof. now rewrite bridge_run. Qed.

(** C8. A call of the bridge, whether it returns or raises, leaves every
    list object of the heap as it was, in particular the transcript it was
    given, and prints nothing: the request log is the only part of the world
    it changes. *)
Theorem bridge_preserves_transcript model messages temperature max_tokens base_url w :
  let w' := snd (bridge model messages temperature max_tokens base_url w) in
  transcript_at w' messages = transcript_at w messages
  /\ heap w' = heap w
  /\ console w' = console w.
Proof. rewrite bridge_run. now cbn. Qed.

(** C9. On an HTTP success whose body is an object with a "message" object
    holding a "content" that is not a string, the bridge raises
    [AttributeError], the error of calling [strip] on a value without that
    method, which is not the schema error; a "response" value of any type is
    converted with [str] and the call returns. *)
Theorem non_string_fields model messages temperature max_tokens base_url w d :
  http_success (server w (length (sent w))
                  (bridge_request model (transcript_at w messages)
                                  temperature max_tokens base_url))
               (JDict d) ->
  let outcome := fst (bridge model messages temperature max_tokens base_url w) in
  (forall m v,
      dict_get d "message" = Some (JDict m) ->
      dict_get m "content" = Some v ->
      (forall s, v <> JStr s) ->
      outcome = Raise AttributeError /\ AttributeError <> SchemaError)
  /\ (forall v,
         no_message_content d ->
         dict_get d "response" = Some v ->
         exists answer, outcome = Return answer
                        /\ answer = Text.strip (py_str float_repr str_repr v)).
Proof.
  intros Hok outcome. subst outcome. rewrite bridge_outcome.
  rewrite (result_of_success _ _ Hok). split.
  - intros m v Hm Hc Hv. rewrite (extract_message_content _ _ _ Hm Hc).
    split; [| discriminate].
    destruct v; cbn; try reflexivity. now destruct (Hv s).
  - intros v Hno Hr. rewrite (extract_no_message_content _ Hno), Hr. eauto.
Qed.

(** *** The heap *)

Lemma update_length h r f : length (update h r f) = length h.
Proof.
  revert r. induction h as [| l h IH]; intros [| r]; cbn; congruence.
Qed.

Lemma update_nth_same h r f :
  r < length h -> nth r (update h r f) [] = f (nth r h []).
Proof.
  revert r. induction h as [| l h IH]; intros [| r] Hr; cbn in *;
    try lia; [reflexivity | apply IH; lia].
Qed.

Lemma transcript_at_append (w : world float) h m :
  h < length (heap w) ->
  transcript_at (snd (append h m w)) h = transcript_at w h ++ [m].
Proof. intros Hh. unfold transcript_at. cbn. now apply update_nth_same. Qed.

Lemma update_update hp h (f g : list Message -> list Message) :
  update (update hp h f) h g = update hp h (fun l => g (f l)).
Proof.
  revert h. induction hp as [| l hp IH]; intros [| h]; cbn; try reflexivity.
  now rewrite IH.
Qed.

Lemma update_app_nil hp h : update hp h (fun l => l ++ []) = hp.
Proof.
  revert h. induction hp as [| l hp IH]; intros [| h]; cbn; try reflexivity.
  - now rewrite app_nil_r.
  - now rewrite IH.
Qed.

Lemma update_ext hp h (f g : list Message -> list Message) :
  (forall l, f l = g l) -> update hp h f = update hp h g.
Proof.
  intros Hfg. revert h. induction hp as [| l hp IH]; intros [| h]; cbn;
    try reflexivity; [now rewrite Hfg | now rewrite IH].
Qed.

Lemma update_last hp x (f : list Message -> list Message) :
  update (hp ++ [x]) (length hp) f = hp ++ [f x].
Proof. induction hp as [| l hp IH]; cbn; [reflexivity | now rewrite IH]. Qed.

(** *** Further properties of the bridge *)

Ltac case_extract :=
  repeat match goal with
         | H : context [match ?x with _ => _ end] |- _ =>
             let E := fresh "E" in destruct x eqn:E; cbn in H
         | |- context [match ?x with _ => _ end] =>
             let E := fresh "E" in destruct x eqn:E; cbn
         end.

Lemma extract_returns data answer :
  extract data = Return answer ->
  exists d text, data = JDict d /\ answer = Text.strip text.
Proof.
  unfold extract_answer. destruct data as [| b | z | f | s | l | d]; cbn;
    try discriminate.
  - intros H. case_extract; discriminate.
  - intros H. case_extract; discriminate.
  - intros H. exists d. unfold py_strip in H.
    case_extract; try discriminate; injection H as <-; eauto.
Qed.

Lemma result_of_returns o answer :
  result_of o = Return answer ->
  exists data, http_success o data /\ extract data = Return answer.
Proof.
  destruct o as [e | r]; cbn.
  - destruct e; discriminate.
  - destruct (raise_for_status r) as [e |] eqn:Hs; [destruct e; discriminate |].
    destruct (resp_json r) as [data | e] eqn:Hj; [| discriminate].
    intros H. exists data. split; [| exact H]. now exists r.
Qed.

(** X11. The bridge returns an answer only for an HTTP success whose body is
    a JSON object, and every answer it returns is trimmed: it neither starts
    nor ends with whitespace. *)
Theorem bridge_answers_are_trimmed model messages temperature max_tokens base_url
        w answer :
  fst (bridge model messages temperature max_tokens base_url w) = Return answer ->
  (exists d,
      http_success (server w (length (sent w))
                      (bridge_request model (transcript_at w messages)
                                      temperature max_tokens base_url))
                   (JDict d))
  /\ starts_with_space answer = false
  /\ ends_with_space answer = false.
Proof.
  rewrite bridge_outcome. intros H.
  destruct (result_of_returns _ _ H) as (data & Hok & Hex).
  destruct (extract_returns _ _ Hex) as (d & text & -> & ->).
  split; [now exists d |]. apply strip_trimmed.
Qed.

Lemma contains_guards_getitem k (v : json float) key :
  py_contains k v = Return true -> py_getitem v k <> Raise (KeyError key).
Proof.
  destruct v; cbn; try discriminate.
  destruct (dict_get d k); discriminate.
Qed.

Lemma py_contains_raises k (v : json float) e :
  py_contains k v = Raise e -> e = TypeError.
Proof. destruct v; cbn; congruence. Qed.

Lemma response_branch_no_KeyError (data : json float) key :
  (has_response <- py_contains "response" data ;;
   if has_response : bool then
     response <- py_getitem data "response" ;;
     Return (Text.strip (py_str float_repr str_repr response))
   else Raise SchemaError)
  <> Raise (KeyError key).
Proof.
  cbn. destruct (py_contains "response" data) as [[|] | e] eqn:Hr.
  - destruct (py_getitem data "response") as [v | e] eqn:Hg; [discriminate |].
    intros H. injection H as ->. exact (contains_guards_getitem _ _ _ Hr Hg).
  - discriminate.
  - apply py_contains_raises in Hr. subst e. discriminate.
Qed.

(** X12. The extraction never raises [KeyError]: every subscript it takes is
    guarded by a membership test on the same key. *)
Theorem extraction_never_raises_KeyError data key :
  extract_answer float_repr str_repr data <> Raise (KeyError key).
Proof.
  unfold extract_answer. cbn [bind result_Monad].
  destruct (py_contains "message" data) as [[|] | e] eqn:Hm.
  - destruct (py_getitem data "message") as [m | e] eqn:Hg.
    + destruct (py_contains "content" m) as [[|] | e] eqn:Hc.
      * destruct (py_getitem m "content") as [c | e] eqn:Hgc.
        -- destruct c; discriminate.
        -- intros H. injection H as ->.
           exact (contains_guards_getitem _ _ _ Hc Hgc).
      * apply response_branch_no_KeyError.
      * apply py_contains_raises in Hc. subst e. discriminate.
    + intros H. injection H as ->. exact (contains_guards_getitem _ _ _ Hm Hg).
  - apply response_branch_no_KeyError.
  - apply py_contains_raises in Hm. subst e. discriminate.
Qed.

(** X13. An HTTP success whose body is not a JSON object never yields an
    answer: the call raises the schema error when the body is an array with
    neither "message" nor "response" among its elements, or a string with
    neither word in it, and [TypeError] for every other body (null, booleans,
    numbers, and arrays or strings that do mention one of the words). *)
Theorem non_object_body_fails model messages temperature max_tokens base_url w data :
  http_success (server w (length (sent w))
                  (bridge_request model (transcript_at w messages)
                                  temperature max_tokens base_url))
               data ->
  (forall d, data <> JDict d) ->
  let outcome := fst (bridge model messages temperature max_tokens base_url w) in
  (py_contains "message" data = Return false ->
   py_contains "response" data = Return false ->
   outcome = Raise SchemaError)
  /\ (~ (py_contains "message" data = Return false
         /\ py_contains "response" data = Return false) ->
      outcome = Raise TypeError).
Proof.
  intros Hok Hdata outcome. subst outcome. rewrite bridge_outcome.
  rewrite (result_of_success _ _ Hok). unfold extract_answer.
  destruct data as [| b | z | f | s | l | d]; cbn;
    try (split; [discriminate | reflexivity]).
  - split.
    + intros Hm Hr. injection Hm as ->. injection Hr as ->. reflexivity.
    + intros Hnot. destruct (Text.contains "message" s); [reflexivity |].
      destruct (Text.contains "response" s); [reflexivity |].
      exfalso. apply Hnot. now split.
  - split.
    + intros Hm Hr. injection Hm as Hm. injection Hr as Hr.
      now rewrite Hm, Hr.
    + intros Hnot. destruct (existsb _ l); [reflexivity |]. cbn.
      destruct (existsb _ l); [reflexivity |].
      exfalso. apply Hnot. now split.
  - now destruct (Hdata d).
Qed.

(** X14. On an HTTP success whose body is an object with a "message" that is
    not an object: when "content" is not found in it (a string without that
    word, an array without that element), the call falls through to
    "response" as if "message" were absent; otherwise (null, a boolean, a
    number, or a string or array that mentions "content") the call raises
    [TypeError]. *)
Theorem non_object_message model messages temperature max_tokens base_url w d m :
  http_success (server w (length (sent w))
                  (bridge_request model (transcript_at w messages)
                                  temperature max_tokens base_url))
               (JDict d) ->
  dict_get d "message" = Some m ->
  (forall m', m <> JDict m') ->
  let outcome := fst (bridge model messages temperature max_tokens base_url w) in
  (py_contains "content" m = Return false ->
   outcome = match dict_get d "response" with
             | Some v => Return (Text.strip (py_str float_repr str_repr v))
             | None => Raise SchemaError
             end)
  /\ (py_contains "content" m <> Return false -> outcome = Raise TypeError).
Proof.
  intros Hok Hm Hnot outcome. subst outcome. rewrite bridge_outcome.
  rewrite (result_of_success _ _ Hok). unfold extract_answer. cbn.
  rewrite Hm. cbn.
  destruct m as [| b | z | f | s | l | m']; cbn;
    try (split; [discriminate | reflexivity]).
  - split.
    + intros H. injection H as ->. now destruct (dict_get d "response").
    + intros H. destruct (Text.contains "content" s); [reflexivity |].
      now destruct H.
  - split.
    + intros H. injection H as ->. now destruct (dict_get d "response").
    + intros H. destruct (existsb _ l); [reflexivity |]. now destruct H.
  - now destruct (Hnot m').
Qed.

(** X15. The request body loses nothing of the call's arguments: two calls
    whose bodies are equal have the same model, the same transcript (roles and
    contents, in order), the same temperature and the same token budget. *)
Theorem payload_determines_arguments
        model1 model2 (t1 t2 : list Message) (temp1 temp2 : float) max1 max2 :
  payload model1 t1 temp1 max1 = payload model2 t2 temp2 max2 ->
  model1 = model2 /\ t1 = t2 /\ temp1 = temp2 /\ max1 = max2.
Proof.
  unfold payload. intros H. injection H as Hmodel Ht Htemp Hmax.
  repeat split; try assumption.
  revert t2 Ht. induction t1 as [| m1 t1 IH]; intros [| m2 t2] Ht;
    try discriminate; [reflexivity |].
  destruct m1 as [r1 c1], m2 as [r2 c2]. cbn in Ht.
  injection Ht as -> -> Ht. f_equal. now apply IH.
Qed.

Lemma result_of_trimmed o answer :
  result_of o = Return answer -> no_surrounding_space answer.
Proof.
  intros H. destruct (result_of_returns _ _ H) as (data & _ & Hex).
  destruct (extract_returns _ _ Hex) as (d & text & _ & ->).
  apply strip_trimmed.
Qed.

Lemma update_append_twice hp h (q a : Message) :
  update (update hp h (fun l => l ++ [q])) h (fun l => l ++ [a])
  = update hp h (fun l => l ++ [q; a]).
Proof.
  rewrite update_update. apply update_ext. intros l. now rewrite <- app_assoc.
Qed.

(** *** The interactive loop, one input at a time *)

Ltac case_markup :=
  match goal with
  | |- context [if ?f ?ev then _ else _] => destruct (f ev) eqn:?
  end.

Lemma is_exit_terminal raw :
  is_exit (Text.strip raw) = true <-> terminal_input raw.
Proof.
  unfold is_exit, terminal_input, caseless_eq. cbn.
  rewrite orb_true_iff, !String.eqb_eq. apply iff_refl.
Qed.

Lemma is_exit_not_terminal raw :
  is_exit (Text.strip raw) = false <-> ~ terminal_input raw.
Proof.
  rewrite <- is_exit_terminal. destruct (is_exit (Text.strip raw)); split;
    congruence.
Qed.

Lemma loop_terminal model temperature max_tokens h raw rest w :
  terminal_input raw ->
  loop model temperature max_tokens h (raw :: rest) w = (Return Ended, w).
Proof.
  intros Ht. apply is_exit_terminal in Ht. cbn. now rewrite Ht.
Qed.

(** The bridge call of a turn, made right after the question is appended. *)
Lemma bridge_after_append model temperature max_tokens h (q : Message) w :
  h < length (heap w) ->
  bridge model h temperature max_tokens default_url (snd (append h q w))
  = (result_of (server w (length (sent w))
                  (bridge_request model (transcript_at w h ++ [q])
                                  temperature max_tokens default_url)),
     log_request (snd (append h q w))
                 (bridge_request model (transcript_at w h ++ [q])
                                 temperature max_tokens default_url)).
Proof.
  intros Hh. rewrite bridge_run. cbv zeta.
  now rewrite (transcript_at_append w h q Hh).
Qed.

(** One input that does not end the session: the request goes out, the
    exchange is recorded, and the loop goes on unless printing its outcome
    fails. *)
Lemma loop_step model temperature max_tokens h raw rest w :
  h < length (heap w) ->
  ~ terminal_input raw ->
  let req := bridge_request model
               (transcript_at w h ++ [mkMessage "user" (Text.strip raw)])
               temperature max_tokens default_url in
  let r := result_of (server w (length (sent w)) req) in
  loop model temperature max_tokens h (raw :: rest) w
  = if markup_fails (exchange_event r)
    then (Raise MarkupError, after_exchange w h raw req r false)
    else loop model temperature max_tokens h rest
              (after_exchange w h raw req r true).
Proof.
  intros Hh Ht req r. apply is_exit_not_terminal in Ht.
  cbn [chat_loop]. rewrite Ht.
  cbv [bind M_Monad try_except].
  change (append h (mkMessage "user" (Text.strip raw)) w)
    with (Return tt, snd (append h (mkMessage "user" (Text.strip raw)) w)).
  cbv iota. rewrite (bridge_after_append _ _ _ _ _ _ Hh). fold req. fold r.
  unfold after_exchange.
  destruct r as [answer | e]; cbn [exchange_event exchange_messages];
    cbv [append console_print log_request snd];
    cbn [server sent heap console];
    destruct (markup_fails _); rewrite ?update_append_twice; reflexivity.
Qed.

Lemma after_exchange_transcript (w : world float) h raw req r printed :
  h < length (heap w) ->
  transcript_at (after_exchange w h raw req r printed) h
  = transcript_at w h ++ exchange_messages raw r.
Proof. intros Hh. unfold transcript_at. cbn. now apply update_nth_same. Qed.

Lemma after_exchange_allocated (w : world float) h raw req r printed :
  h < length (heap w) -> h < length (heap (after_exchange w h raw req r printed)).
Proof. intros Hh. cbn. now rewrite update_length. Qed.

(** *** Whole sessions *)

Local Abbreviation session := (chat float_repr str_repr os_environ markup_fails).
Local Abbreviation single_shot := (ask float_repr str_repr os_environ markup_fails).

Lemma chat_run model temperature max_tokens inputs w :
  session model temperature max_tokens inputs w
  = if markup_fails (PrintBanner model)
    then (Raise MarkupError, w)
    else loop model temperature max_tokens (length (heap w)) inputs
              (session_start model w).
Proof.
  unfold chat, banner. cbv [bind M_Monad console_print alloc].
  now destruct (markup_fails (PrintBanner model)).
Qed.

Lemma session_start_transcript model (w : world float) :
  transcript_at (session_start model w) (length (heap w)) = [system_message].
Proof. unfold transcript_at. cbn. apply nth_middle. Qed.

Lemma session_start_allocated model (w : world float) :
  length (heap w) < length (heap (session_start model w)).
Proof. cbn. rewrite length_app. cbn. lia. Qed.

(** A loop that is awaiting input has read all its inputs and reads on. *)
Lemma loop_reads_on model temperature max_tokens h pre rest w :
  h < length (heap w) ->
  fst (loop model temperature max_tokens h pre w) = Return AwaitingInput ->
  h < length (heap (snd (loop model temperature max_tokens h pre w)))
  /\ loop model temperature max_tokens h (pre ++ rest) w
     = loop model temperature max_tokens h rest
            (snd (loop model temperature max_tokens h pre w)).
Proof.
  revert w. induction pre as [| raw pre IH]; intros w Hh Hawait.
  - split; [exact Hh | reflexivity].
  - destruct (is_exit (Text.strip raw)) eqn:Hx.
    + apply is_exit_terminal in Hx.
      rewrite (loop_terminal _ _ _ _ _ _ _ Hx) in Hawait. discriminate.
    + apply is_exit_not_terminal in Hx. rewrite <- app_comm_cons.
      rewrite !(loop_step _ _ _ _ _ _ _ Hh Hx) in *. cbv zeta in *.
      destruct (markup_fails _); [discriminate |].
      apply IH; [now apply after_exchange_allocated | exact Hawait].
Qed.

(** A session that is awaiting input got past its banner, owns its history
    and reads on. *)
Lemma chat_reads_on model temperature max_tokens pre w :
  fst (session model temperature max_tokens pre w) = Return AwaitingInput ->
  markup_fails (PrintBanner model) = false
  /\ length (heap w)
     < length (heap (snd (session model temperature max_tokens pre w)))
  /\ forall rest,
      session model temperature max_tokens (pre ++ rest) w
      = loop model temperature max_tokens (length (heap w)) rest
             (snd (session model temperature max_tokens pre w)).
Proof.
  rewrite chat_run. destruct (markup_fails (PrintBanner model)) eqn:Hb;
    [discriminate |].
  intros Hawait. split; [reflexivity |].
  pose proof (session_start_allocated model w) as Hh.
  split.
  - now apply (loop_reads_on _ _ _ _ _ [] _ Hh).
  - intros rest. rewrite chat_run, Hb. now apply loop_reads_on.
Qed.

(** A session that is awaiting input, given one more input that does not
    end it. *)
Lemma chat_step model temperature max_tokens pre raw rest w :
  fst (session model temperature max_tokens pre w) = Return AwaitingInput ->
  ~ terminal_input raw ->
  let h := length (heap w) in
  let w0 := snd (session model temperature max_tokens pre w) in
  let req := bridge_request model
               (transcript_at w0 h ++ [mkMessage "user" (Text.strip raw)])
               temperature max_tokens default_url in
  let r := result_of (server w0 (length (sent w0)) req) in
  h < length (heap w0)
  /\ session model temperature max_tokens (pre ++ raw :: rest) w
     = if markup_fails (exchange_event r)
       then (Raise MarkupError, after_exchange w0 h raw req r false)
       else loop model temperature max_tokens h rest
                 (after_exchange w0 h raw req r true).
Proof.
  intros Hawait Hraw h w0 req r.
  destruct (chat_reads_on _ _ _ _ _ Hawait) as (_ & Hh & Hon).
  split; [exact Hh |]. rewrite Hon. now apply loop_step.
Qed.

(** *** Claims about the interactive session *)

(** C4. When a session is awaiting input, an input that, trimmed, equals
    "exit" or "quit" up to case ends the session normally and leaves the
    world as it was when the input was read: no request is issued and nothing
    is appended. Any other input makes the session issue one request, whose
    messages are the transcript with the trimmed input appended to it as a
    user message. *)
Theorem exit_ends_other_input_is_sent model temperature max_tokens pre raw rest w :
  fst (session model temperature max_tokens pre w) = Return AwaitingInput ->
  let history := length (heap w) in
  let w0 := snd (session model temperature max_tokens pre w) in
  (terminal_input raw ->
   session model temperature max_tokens (pre ++ raw :: rest) w
   = (Return Ended, w0))
  /\ (~ terminal_input raw ->
      sent (snd (session model temperature max_tokens (pre ++ [raw]) w))
      = sent w0
        ++ [bridge_request model
              (transcript_at w0 history ++ [mkMessage "user" (Text.strip raw)])
              temperature max_tokens default_url]).
Proof.
  intros Hawait history w0. split; intros Hraw.
  - destruct (chat_reads_on _ _ _ _ _ Hawait) as (_ & _ & Hon).
    rewrite Hon. now apply loop_terminal.
  - destruct (chat_step _ _ _ _ raw [] _ Hawait Hraw) as [_ Heq].
    cbv zeta in Heq. rewrite Heq. now destruct (markup_fails _).
Qed.


(** C10. The user message a turn appends, and the request it sends, hold
    the input trimmed by [strip], not the raw input; an input that is empty
    once trimmed does not end the session: it is appended as a user message
    with empty content and a request is issued for it. *)
Theorem user_message_is_trimmed_input model temperature max_tokens pre raw w :
  fst (session model temperature max_tokens pre w) = Return AwaitingInput ->
  let history := length (heap w) in
  let w0 := snd (session model temperature max_tokens pre w) in
  let w' := snd (session model temperature max_tokens (pre ++ [raw]) w) in
  trimmed raw (Text.strip raw)
  /\ (~ terminal_input raw ->
   (exists tail,
       transcript_at w' history
       = transcript_at w0 history ++ mkMessage "user" (Text.strip raw) :: tail)
   /\ sent w'
      = sent w0
        ++ [bridge_request model
              (transcript_at w0 history ++ [mkMessage "user" (Text.strip raw)])
              temperature max_tokens default_url])
  /\ (Text.strip raw = "" ->
      ~ terminal_input raw
      /\ (exists tail,
             transcript_at w' history
             = transcript_at w0 history ++ mkMessage "user" "" :: tail)
      /\ sent w'
         = sent w0
           ++ [bridge_request model
                 (transcript_at w0 history ++ [mkMessage "user" ""])
                 temperature max_tokens default_url]).
Proof.
  intros Hawait history w0 w'.
  assert (Hturn : ~ terminal_input raw ->
                  (exists tail,
                      transcript_at w' history
                      = transcript_at w0 history
                        ++ mkMessage "user" (Text.strip raw) :: tail)
                  /\ sent w'
                     = sent w0
                       ++ [bridge_request model
                             (transcript_at w0 history
                              ++ [mkMessage "user" (Text.strip raw)])
                             temperature max_tokens default_url]).
  { intros Hraw. destruct (chat_step _ _ _ _ raw [] _ Hawait Hraw) as [Hh Heq].
    cbv zeta in Heq. fold history w0 in Heq, Hh. subst w'. rewrite Heq.
    destruct (markup_fails _); cbn [snd chat_loop ret M_Monad];
      (split; [| reflexivity]);
      rewrite (after_exchange_transcript _ _ _ _ _ _ Hh);
      unfold exchange_messages; eauto. }
  split; [apply strip_trimmed |]. split; [exact Hturn |].
  intros Hempty.
  assert (Hraw : ~ terminal_input raw).
  { apply is_exit_not_terminal. now rewrite Hempty. }
  destruct (Hturn Hraw) as [Htail Hsent]. rewrite Hempty in Htail, Hsent.
  auto.
Qed.

(** *** The transcript invariant *)

Lemma transcript_ok_app t l :
  transcript_ok t ->
  Forall (fun m => role m <> "system") l ->
  transcript_ok (t ++ l).
Proof.
  intros (rest & -> & Hrest) Hl. exists (rest ++ l). split; [reflexivity |].
  apply Forall_app. now split.
Qed.

Lemma transcript_ok_start : transcript_ok [system_message].
Proof. exists []. split; [reflexivity | constructor]. Qed.

Lemma loop_invariant model temperature max_tokens h inputs w :
  h < length (heap w) ->
  transcript_ok (transcript_at w h) ->
  let w' := snd (loop model temperature max_tokens h inputs w) in
  transcript_ok (transcript_at w' h)
  /\ exists reqs, sent w' = sent w ++ reqs
                  /\ requests_ok model temperature max_tokens default_url reqs.
Proof.
  revert w. induction inputs as [| raw rest IH]; intros w Hh Hok; cbv zeta.
  - split; [exact Hok |]. exists []. split; [now rewrite app_nil_r | constructor].
  - destruct (is_exit (Text.strip raw)) eqn:Hx.
    + apply is_exit_terminal in Hx. rewrite (loop_terminal _ _ _ _ _ _ _ Hx).
      split; [exact Hok |].
      exists []. split; [now rewrite app_nil_r | constructor].
    + apply is_exit_not_terminal in Hx. rewrite (loop_step _ _ _ _ _ _ _ Hh Hx).
      cbv zeta.
      set (req := bridge_request model
                    (transcript_at w h ++ [mkMessage "user" (Text.strip raw)])
                    temperature max_tokens default_url).
      set (r := result_of (server w (length (sent w)) req)).
      assert (Hok1 : forall printed,
                 transcript_ok (transcript_at (after_exchange w h raw req r printed) h)).
      { intros printed. rewrite (after_exchange_transcript _ _ _ _ _ _ Hh).
        apply transcript_ok_app; [assumption |].
        unfold exchange_messages. destruct r; repeat constructor; cbn; discriminate. }
      assert (Hreq : requests_ok model temperature max_tokens default_url [req]).
      { constructor; [| constructor]. eexists. split; [| reflexivity].
        apply transcript_ok_app; [assumption |].
        repeat constructor; cbn; discriminate. }
      destruct (markup_fails _).
      * cbn [snd]. split; [apply Hok1 |]. exists [req]. now split.
      * destruct (IH (after_exchange w h raw req r true)
                     (after_exchange_allocated _ _ _ _ _ _ Hh) (Hok1 true))
          as (Hfinal & reqs & Hreqs & Hall).
        split; [exact Hfinal |]. exists (req :: reqs). split.
        -- rewrite Hreqs. cbn [after_exchange sent]. now rewrite <- app_assoc.
        -- constructor; [now inversion Hreq | exact Hall].
Qed.

Lemma ask_run question model temperature max_tokens w :
  let messages := [system_message; mkMessage "user" question] in
  let req := bridge_request model messages temperature max_tokens default_url in
  let r := result_of (server w (length (sent w)) req) in
  bridge model (length (heap w)) temperature max_tokens default_url
         (snd (alloc messages w))
  = (r, log_request (snd (alloc messages w)) req)
  /\ single_shot question model temperature max_tokens w
     = if markup_fails (ask_event r)
       then (Raise MarkupError, after_ask w messages req r false)
       else (match r with
             | Return _ => Return tt
             | Raise _ => Raise (Exit 1)
             end, after_ask w messages req r true).
Proof.
  intros messages req r.
  assert (Hbridge : bridge model (length (heap w)) temperature max_tokens
                           default_url (snd (alloc messages w))
                    = (r, log_request (snd (alloc messages w)) req)).
  { rewrite bridge_run. cbv zeta. unfold transcript_at. cbn [alloc snd heap].
    rewrite nth_middle. reflexivity. }
  split; [exact Hbridge |].
  unfold ask. cbv [bind M_Monad try_except].
  change (alloc [system_message; mkMessage "user" question] w)
    with (Return (length (heap w)), snd (alloc messages w)).
  cbv iota. rewrite Hbridge. unfold after_ask.
  destruct r as [answer | e]; cbn [ask_event];
    cbv [console_print raise log_request alloc snd];
    cbn [server sent heap console];
    now destruct (markup_fails _).
Qed.

(** C5. The system message has role "system" and the persona text as its
    content. In an interactive session that got past its banner, whatever has
    been typed so far, the history starts with the system message and holds no
    other message of role "system"; a session whose banner fails to render
    ends before any transcript exists. The transcript of every request a
    session has sent satisfies the same invariant. In single-shot mode the
    transcript is the system message followed by the question. *)
Theorem system_message_first_and_once model temperature max_tokens inputs question w :
  let w' := snd (session model temperature max_tokens inputs w) in
  let wa := snd (single_shot question model temperature max_tokens w) in
  role system_message = "system"
  /\ content system_message = SYSTEM_PROMPT
  /\ (markup_fails (PrintBanner model) = false ->
      transcript_ok (transcript_at w' (length (heap w))))
  /\ (markup_fails (PrintBanner model) = true ->
      session model temperature max_tokens inputs w = (Raise MarkupError, w))
  /\ (exists reqs, sent w' = sent w ++ reqs
                   /\ requests_ok model temperature max_tokens default_url reqs)
  /\ transcript_at wa (length (heap w))
     = [system_message; mkMessage "user" question]
  /\ transcript_ok (transcript_at wa (length (heap w))).
Proof.
  intros w' wa. split; [reflexivity |]. split; [reflexivity |].
  destruct (loop_invariant model temperature max_tokens (length (heap w)) inputs
              (session_start model w) (session_start_allocated model w))
    as [Hok Hreqs].
  { rewrite session_start_transcript. apply transcript_ok_start. }
  subst w'. rewrite chat_run.
  split; [intros Hb; rewrite Hb; exact Hok |].
  split; [intros Hb; now rewrite Hb |].
  split.
  { destruct (markup_fails (PrintBanner model)); [| exact Hreqs].
    exists []. split; [now rewrite app_nil_r | constructor]. }
  assert (Hwa : transcript_at wa (length (heap w))
                = [system_message; mkMessage "user" question]).
  { subst wa. destruct (ask_run question model temperature max_tokens w) as [_ ->].
    destruct (markup_fails _); unfold transcript_at; cbn; apply nth_middle. }
  split; [exact Hwa |]. rewrite Hwa.
  apply (transcript_ok_app [system_message] [mkMessage "user" question]).
  - apply transcript_ok_start.
  - repeat constructor; cbn; discriminate.
Qed.


(** *** Sessions as sequences of exchanges *)

Local Abbreviation answers := (answers_from float_repr str_repr).

Lemma answers_length srv n reqs : length (answers srv n reqs) = length reqs.
Proof.
  revert n. induction reqs as [| req reqs IH]; intros n; cbn;
    [reflexivity | now rewrite IH].
Qed.

Lemma loop_trace model temperature max_tokens h inputs w :
  h < length (heap w) ->
  let w' := snd (loop model temperature max_tokens h inputs w) in
  exists reqs,
    sent w' = sent w ++ reqs
    /\ transcript_at w' h
       = transcript_at w h
         ++ history_of (combine (processed inputs)
                                (answers (server w) (length (sent w)) reqs))
    /\ (forall s,
           fst (loop model temperature max_tokens h inputs w) = Return s ->
           length reqs = length (processed inputs)
           /\ console w'
              = console w
                ++ map exchange_event
                       (answers (server w) (length (sent w)) reqs)).
Proof.
  revert w. induction inputs as [| raw rest IH]; intros w Hh; cbv zeta.
  - exists []. cbn. rewrite !app_nil_r. repeat split; reflexivity.
  - cbn [processed]. destruct (is_exit (Text.strip raw)) eqn:Hx.
    + apply is_exit_terminal in Hx. rewrite (loop_terminal _ _ _ _ _ _ _ Hx).
      exists []. cbn. rewrite !app_nil_r. repeat split; reflexivity.
    + apply is_exit_not_terminal in Hx. rewrite (loop_step _ _ _ _ _ _ _ Hh Hx).
      cbv zeta.
      set (req := bridge_request model
                    (transcript_at w h ++ [mkMessage "user" (Text.strip raw)])
                    temperature max_tokens default_url).
      set (r := result_of (server w (length (sent w)) req)).
      destruct (markup_fails (exchange_event r)).
      * exists [req]. cbn [snd fst]. split; [reflexivity |]. split.
        -- rewrite (after_exchange_transcript _ _ _ _ _ _ Hh).
           cbn [answers_from combine history_of flat_map fst snd]. fold r.
           rewrite combine_nil. cbn [flat_map]. now rewrite app_nil_r.
        -- discriminate.
      * destruct (IH (after_exchange w h raw req r true)
                     (after_exchange_allocated _ _ _ _ _ _ Hh))
          as (reqs & Hsent & Htr & Hret).
        assert (Hn : length (sent (after_exchange w h raw req r true))
                     = S (length (sent w)))
          by (cbn; rewrite length_app; cbn; lia).
        rewrite Hn in Htr, Hret.
        change (server (after_exchange w h raw req r true)) with (server w)
          in Htr, Hret.
        exists (req :: reqs). split; [| split].
        -- rewrite Hsent. cbn [after_exchange sent]. now rewrite <- app_assoc.
        -- rewrite Htr, (after_exchange_transcript _ _ _ _ _ _ Hh), <- app_assoc.
           reflexivity.
        -- intros s Hs. destruct (Hret s Hs) as [Hlen Hcon]. split.
           ++ cbn. now rewrite Hlen.
           ++ rewrite Hcon. cbn [after_exchange console answers_from map].
              fold r. now rewrite <- app_assoc.
Qed.




Lemma loop_heap model temperature max_tokens h inputs w :
  h < length (heap w) ->
  let w' := snd (loop model temperature max_tokens h inputs w) in
  exists added, heap w' = update (heap w) h (fun l => l ++ added).
Proof.
  revert w. induction inputs as [| raw rest IH]; intros w Hh; cbv zeta.
  - exists []. cbn. now rewrite update_app_nil.
  - destruct (is_exit (Text.strip raw)) eqn:Hx.
    + apply is_exit_terminal in Hx. rewrite (loop_terminal _ _ _ _ _ _ _ Hx).
      exists []. cbn. now rewrite update_app_nil.
    + apply is_exit_not_terminal in Hx. rewrite (loop_step _ _ _ _ _ _ _ Hh Hx).
      cbv zeta. case_markup.
      * eexists. reflexivity.
      * match goal with
        | |- context [loop _ _ _ _ _ ?w1] =>
            destruct (IH w1 (after_exchange_allocated _ _ _ _ _ _ Hh))
              as (added & Hadded)
        end.
        eexists. rewrite Hadded. cbn [after_exchange heap].
        rewrite update_update. apply update_ext.
        intros l. now rewrite <- app_assoc.
Qed.

Lemma texts_of_app r t1 t2 : texts_of r (t1 ++ t2) = texts_of r t1 ++ texts_of r t2.
Proof. unfold texts_of. now rewrite filter_app, map_app. Qed.

Lemma texts_of_user_history inputs outcomes :
  length outcomes = length inputs ->
  texts_of "user" (history_of (combine inputs outcomes)) = map Text.strip inputs.
Proof.
  revert outcomes. induction inputs as [| raw inputs IH];
    intros [| r outcomes] Hn; try discriminate; [reflexivity |].
  cbn [combine history_of flat_map]. fold (history_of (combine inputs outcomes)).
  rewrite texts_of_app, IH by (cbn in Hn; lia).
  now destruct r.
Qed.

Lemma texts_of_assistant_history inputs outcomes :
  length outcomes = length inputs ->
  texts_of "assistant" (history_of (combine inputs outcomes))
  = panel_texts (map exchange_event outcomes).
Proof.
  revert outcomes. induction inputs as [| raw inputs IH];
    intros [| r outcomes] Hn; try discriminate; [reflexivity |].
  cbn [combine history_of flat_map]. fold (history_of (combine inputs outcomes)).
  rewrite texts_of_app, IH by (cbn in Hn; lia).
  now destruct r.
Qed.

Lemma prefix_of_refl {A : Type} (l : list A) : prefix_of l l.
Proof. exists []. now rewrite app_nil_r. Qed.

Lemma prefix_of_app {A : Type} (l l' : list A) : prefix_of l (l ++ l').
Proof. now exists l'. Qed.

Lemma prefix_of_trans {A : Type} (l1 l2 l3 : list A) :
  prefix_of l1 l2 -> prefix_of l2 l3 -> prefix_of l1 l3.
Proof.
  intros [s1 ->] [s2 ->]. exists (s1 ++ s2). now rewrite app_assoc.
Qed.

Lemma loop_extends model temperature max_tokens h inputs w :
  h < length (heap w) ->
  let w' := snd (loop model temperature max_tokens h inputs w) in
  prefix_of (transcript_at w h) (transcript_at w' h)
  /\ prefix_of (sent w) (sent w')
  /\ prefix_of (console w) (console w').
Proof.
  revert w. induction inputs as [| raw rest IH]; intros w Hh; cbv zeta.
  - repeat split; apply prefix_of_refl.
  - destruct (is_exit (Text.strip raw)) eqn:Hx.
    + apply is_exit_terminal in Hx. rewrite (loop_terminal _ _ _ _ _ _ _ Hx).
      repeat split; apply prefix_of_refl.
    + apply is_exit_not_terminal in Hx. rewrite (loop_step _ _ _ _ _ _ _ Hh Hx).
      cbv zeta. case_markup.
      * cbn [snd]. rewrite (after_exchange_transcript _ _ _ _ _ _ Hh).
        repeat split; [apply prefix_of_app | apply prefix_of_app
                       | apply prefix_of_refl].
      * match goal with
        | |- context [loop _ _ _ _ _ ?w1] =>
            destruct (IH w1 (after_exchange_allocated _ _ _ _ _ _ Hh))
              as (Ht & Hs & Hc);
            rewrite (after_exchange_transcript _ _ _ _ _ _ Hh) in Ht
        end.
        repeat split.
        -- eapply prefix_of_trans; [| exact Ht]. apply prefix_of_app.
        -- eapply prefix_of_trans; [| exact Hs]. apply prefix_of_app.
        -- eapply prefix_of_trans; [| exact Hc]. apply prefix_of_app.
Qed.

Lemma loop_extends_app model temperature max_tokens h pre rest w :
  h < length (heap w) ->
  let w1 := snd (loop model temperature max_tokens h pre w) in
  let w2 := snd (loop model temperature max_tokens h (pre ++ rest) w) in
  prefix_of (transcript_at w1 h) (transcript_at w2 h)
  /\ prefix_of (sent w1) (sent w2)
  /\ prefix_of (console w1) (console w2).
Proof.
  revert w. induction pre as [| raw pre IH]; intros w Hh; cbv zeta.
  - now apply loop_extends.
  - rewrite <- app_comm_cons. destruct (is_exit (Text.strip raw)) eqn:Hx.
    + apply is_exit_terminal in Hx. rewrite !(loop_terminal _ _ _ _ _ _ _ Hx).
      repeat split; apply prefix_of_refl.
    + apply is_exit_not_terminal in Hx. rewrite !(loop_step _ _ _ _ _ _ _ Hh Hx).
      cbv zeta. case_markup.
      * repeat split; apply prefix_of_refl.
      * apply IH. now apply after_exchange_allocated.
Qed.

Lemma loop_requests model temperature max_tokens h inputs w :
  h < length (heap w) ->
  let w' := snd (loop model temperature max_tokens h inputs w) in
  exists reqs,
    sent w' = sent w ++ reqs
    /\ Forall (asks_user_turn model temperature max_tokens default_url
                              (transcript_at w' h)) reqs.
Proof.
  revert w. induction inputs as [| raw rest IH]; intros w Hh; cbv zeta.
  - exists []. split; [now rewrite app_nil_r | constructor].
  - destruct (is_exit (Text.strip raw)) eqn:Hx.
    + apply is_exit_terminal in Hx. rewrite (loop_terminal _ _ _ _ _ _ _ Hx).
      exists []. split; [now rewrite app_nil_r | constructor].
    + apply is_exit_not_terminal in Hx. rewrite (loop_step _ _ _ _ _ _ _ Hh Hx).
      cbv zeta.
      set (req := bridge_request model
                    (transcript_at w h ++ [mkMessage "user" (Text.strip raw)])
                    temperature max_tokens default_url).
      set (r := result_of (server w (length (sent w)) req)).
      assert (Hfirst : forall printed final,
                 prefix_of (transcript_at (after_exchange w h raw req r printed) h)
                           final ->
                 asks_user_turn model temperature max_tokens default_url final req).
      { intros printed final Hpre.
        exists (transcript_at w h), (Text.strip raw). split; [reflexivity |].
        eapply prefix_of_trans; [| exact Hpre].
        rewrite (after_exchange_transcript _ _ _ _ _ _ Hh).
        unfold exchange_messages.
        change (?a :: ?l) with ([a] ++ l) at 2. rewrite app_assoc.
        apply prefix_of_app. }
      destruct (markup_fails (exchange_event r)).
      * exists [req]. cbn [snd]. split; [reflexivity |].
        constructor; [| constructor].
        apply (Hfirst false). apply prefix_of_refl.
      * pose proof (after_exchange_allocated w h raw req r true Hh) as Hh1.
        destruct (IH _ Hh1) as (reqs & Hreqs & Hall).
        destruct (loop_extends model temperature max_tokens h rest _ Hh1)
          as (Hext & _).
        exists (req :: reqs). split.
        -- rewrite Hreqs. cbn [after_exchange sent]. now rewrite <- app_assoc.
        -- constructor; [| exact Hall]. now apply (Hfirst true).
Qed.

Lemma loop_trimmed model temperature max_tokens h inputs w :
  h < length (heap w) ->
  Forall (fun m => role m = "system" \/ no_surrounding_space (content m))
         (transcript_at w h) ->
  Forall (fun m => role m = "system" \/ no_surrounding_space (content m))
         (transcript_at (snd (loop model temperature max_tokens h inputs w)) h).
Proof.
  revert w. induction inputs as [| raw rest IH]; intros w Hh Hall; [exact Hall |].
  destruct (is_exit (Text.strip raw)) eqn:Hx.
  - apply is_exit_terminal in Hx. now rewrite (loop_terminal _ _ _ _ _ _ _ Hx).
  - apply is_exit_not_terminal in Hx. rewrite (loop_step _ _ _ _ _ _ _ Hh Hx).
    cbv zeta.
    set (req := bridge_request model
                  (transcript_at w h ++ [mkMessage "user" (Text.strip raw)])
                  temperature max_tokens default_url).
    remember (result_of (server w (length (sent w)) req)) as r eqn:Hr.
    assert (Hstep : forall printed,
               Forall (fun m => role m = "system"
                                \/ no_surrounding_space (content m))
                      (transcript_at (after_exchange w h raw req r printed) h)).
    { intros printed. rewrite (after_exchange_transcript _ _ _ _ _ _ Hh).
      apply Forall_app. split; [exact Hall |].
      unfold exchange_messages. constructor.
      - right. apply strip_trimmed.
      - destruct r as [answer | e]; constructor; [| constructor].
        right. cbn. symmetry in Hr. exact (result_of_trimmed _ _ Hr). }
    destruct (markup_fails (exchange_event r)); [apply Hstep |].
    apply IH; [now apply after_exchange_allocated | apply Hstep].
Qed.

(** *** Further properties of the interactive session *)

(** X1. When the bridge call made for an input returns [answer], the session
    appends the trimmed input as a user message and then [answer] as an
    assistant message. When the console renders the panel, the answer is
    shown and the session awaits the next input; when rendering it raises
    [MarkupError], the answer is recorded but not shown and the exception
    ends the session. *)
Theorem successful_exchange_records_answer
        model temperature max_tokens pre raw w answer :
  fst (session model temperature max_tokens pre w) = Return AwaitingInput ->
  ~ terminal_input raw ->
  let history := length (heap w) in
  let w0 := snd (session model temperature max_tokens pre w) in
  let question := mkMessage "user" (Text.strip raw) in
  fst (bridge model history temperature max_tokens default_url
              (snd (append history question w0))) = Return answer ->
  let w' := snd (session model temperature max_tokens (pre ++ [raw]) w) in
  transcript_at w' history
  = transcript_at w0 history ++ [question; mkMessage "assistant" answer]
  /\ (markup_fails (PrintPanel answer) = false ->
      fst (session model temperature max_tokens (pre ++ [raw]) w)
      = Return AwaitingInput
      /\ console w' = console w0 ++ [PrintPanel answer])
  /\ (markup_fails (PrintPanel answer) = true ->
      fst (session model temperature max_tokens (pre ++ [raw]) w)
      = Raise MarkupError
      /\ console w' = console w0).
Proof.
  intros Hawait Hraw history w0 question Hanswer w'.
  destruct (chat_step _ _ _ _ raw [] _ Hawait Hraw) as [Hh Heq].
  cbv zeta in Heq. fold history w0 question in Heq, Hh.
  rewrite (bridge_after_append _ _ _ _ _ _ Hh) in Hanswer. cbn [fst] in Hanswer.
  rewrite Hanswer in Heq. cbn [exchange_event] in Heq.
  subst w'. rewrite Heq. split; [| split]; intros.
  - destruct (markup_fails (PrintPanel answer));
      cbn [snd chat_loop ret M_Monad];
      now rewrite (after_exchange_transcript _ _ _ _ _ _ Hh).
  - rewrite H. now cbn.
  - rewrite H. now cbn.
Qed.


(** X3. A session that has not raised has issued exactly one request and
    printed exactly one panel or error line for each input it processed, that
    is for each input before the first one that ends the session; the banner
    was printed once, before all of them. *)
Theorem one_request_and_one_line_per_input model temperature max_tokens inputs w s :
  fst (session model temperature max_tokens inputs w) = Return s ->
  let w' := snd (session model temperature max_tokens inputs w) in
  length (sent w') = length (sent w) + length (processed inputs)
  /\ exists events,
      console w' = console w ++ PrintBanner model :: events
      /\ length events = length (processed inputs)
      /\ Forall is_exchange_event events.
Proof.
  rewrite chat_run. destruct (markup_fails (PrintBanner model)); [discriminate |].
  intros Hs. cbv zeta.
  destruct (loop_trace model temperature max_tokens (length (heap w)) inputs
              (session_start model w) (session_start_allocated model w))
    as (reqs & Hsent & _ & Hret).
  destruct (Hret s Hs) as [Hlen Hcon].
  split.
  - rewrite Hsent, length_app, Hlen. reflexivity.
  - eexists. repeat split.
    + rewrite Hcon. cbn [session_start console]. now rewrite <- app_assoc.
    + now rewrite length_map, answers_length.
    + apply Forall_map, Forall_forall. now intros [answer | e] _.
Qed.

(** X4. The history of a session that has not raised is the system message
    followed, for each processed input in order, by the trimmed input as a
    user message and, when the bridge call made for it returned, by the
    answer of that call as an assistant message, where the call is the
    bridge's reading of what the HTTP layer did with the session's request for
    that input. In particular the user messages of the history are exactly
    the trimmed processed inputs, in order, whether their exchanges failed or
    not. *)
Theorem history_is_the_exchanges model temperature max_tokens inputs w s :
  fst (session model temperature max_tokens inputs w) = Return s ->
  let w' := snd (session model temperature max_tokens inputs w) in
  let history := transcript_at w' (length (heap w)) in
  (exists reqs,
      sent w' = sent w ++ reqs
      /\ length reqs = length (processed inputs)
      /\ history
         = system_message
           :: history_of (combine (processed inputs)
                                  (answers (server w) (length (sent w)) reqs)))
  /\ texts_of "user" history = map Text.strip (processed inputs).
Proof.
  rewrite chat_run. destruct (markup_fails (PrintBanner model)); [discriminate |].
  intros Hs. cbv zeta.
  destruct (loop_trace model temperature max_tokens (length (heap w)) inputs
              (session_start model w) (session_start_allocated model w))
    as (reqs & Hsent & Htr & Hret).
  destruct (Hret s Hs) as [Hlen _].
  rewrite session_start_transcript in Htr.
  change (server (session_start model w)) with (server w) in Htr.
  change (sent (session_start model w)) with (sent w) in Htr, Hsent.
  split.
  - exists reqs. repeat split; assumption.
  - rewrite Htr. change ([system_message] ++ ?t) with (system_message :: t).
    change (texts_of "user" (system_message :: ?t)) with (texts_of "user" t).
    apply texts_of_user_history. now rewrite answers_length.
Qed.

(** X5. In a session that has not raised, what was shown is what is
    recorded: the answers shown in panels are, in order, the contents of the
    assistant messages of the history. *)
Theorem displayed_answers_are_recorded model temperature max_tokens inputs w s :
  fst (session model temperature max_tokens inputs w) = Return s ->
  let w' := snd (session model temperature max_tokens inputs w) in
  exists events,
    console w' = console w ++ PrintBanner model :: events
    /\ panel_texts events
       = texts_of "assistant" (transcript_at w' (length (heap w))).
Proof.
  rewrite chat_run. destruct (markup_fails (PrintBanner model)); [discriminate |].
  intros Hs. cbv zeta.
  destruct (loop_trace model temperature max_tokens (length (heap w)) inputs
              (session_start model w) (session_start_allocated model w))
    as (reqs & _ & Htr & Hret).
  destruct (Hret s Hs) as [Hlen Hcon].
  rewrite session_start_transcript in Htr.
  eexists. split.
  - rewrite Hcon. cbn [session_start console]. now rewrite <- app_assoc.
  - rewrite Htr. change ([system_message] ++ ?t) with (system_message :: t).
    change (texts_of "assistant" (system_message :: ?t))
      with (texts_of "assistant" t).
    symmetry. apply texts_of_assistant_history. now rewrite answers_length.
Qed.

(** X6. A session that got past its banner allocates one list object, its
    history, and touches no other: the heap after the session is the heap
    before it followed by the history. *)
Theorem session_owns_only_its_history model temperature max_tokens inputs w :
  markup_fails (PrintBanner model) = false ->
  let w' := snd (session model temperature max_tokens inputs w) in
  heap w' = heap w ++ [transcript_at w' (length (heap w))].
Proof.
  intros Hb. cbv zeta. rewrite chat_run, Hb.
  destruct (loop_heap model temperature max_tokens (length (heap w)) inputs
              (session_start model w) (session_start_allocated model w))
    as (added & Hheap).
  unfold transcript_at. rewrite Hheap. cbn [session_start heap].
  rewrite update_last, nth_middle. reflexivity.
Qed.

(** X7. The session only ever appends: after more input, the history, the
    log of requests and the console output each extend what they were; no
    message, request or line is removed or rewritten. *)
Theorem session_only_appends model temperature max_tokens pre rest w :
  let w1 := snd (session model temperature max_tokens pre w) in
  let w2 := snd (session model temperature max_tokens (pre ++ rest) w) in
  prefix_of (transcript_at w1 (length (heap w))) (transcript_at w2 (length (heap w)))
  /\ prefix_of (sent w1) (sent w2)
  /\ prefix_of (console w1) (console w2).
Proof.
  cbv zeta. rewrite !chat_run. destruct (markup_fails (PrintBanner model)).
  - repeat split; apply prefix_of_refl.
  - apply loop_extends_app, session_start_allocated.
Qed.

(** X8. Every request of a session is issued for a user turn: its messages
    end with a user message and are an initial segment of the session's
    history, so the server is shown the conversation as recorded up to the
    question it is asked. *)
Theorem requests_ask_user_turns model temperature max_tokens inputs w :
  let w' := snd (session model temperature max_tokens inputs w) in
  exists reqs,
    sent w' = sent w ++ reqs
    /\ Forall (asks_user_turn model temperature max_tokens default_url
                              (transcript_at w' (length (heap w)))) reqs.
Proof.
  cbv zeta. rewrite chat_run. destruct (markup_fails (PrintBanner model)).
  - exists []. split; [now rewrite app_nil_r | constructor].
  - apply (loop_requests model temperature max_tokens (length (heap w)) inputs
             (session_start model w) (session_start_allocated model w)).
Qed.

(** X9. The first turn of an interactive session and the single-shot command
    agree: when the banner renders, for an input that does not end the
    session, [chat] sends the request that [ask] sends for the trimmed input,
    and both act on the same outcome [r] of the bridge call: [chat] records
    the exchange in its history and prints the panel or error line of [r]
    after its banner, [ask] prints the answer or error line of [r], each
    when the console renders it. *)
Theorem first_turn_matches_single_shot model temperature max_tokens raw w :
  markup_fails (PrintBanner model) = false ->
  ~ terminal_input raw ->
  let wc := snd (session model temperature max_tokens [raw] w) in
  let wa := snd (single_shot (Text.strip raw) model temperature max_tokens w) in
  let r := fst (bridge model (length (heap w)) temperature max_tokens default_url
                  (snd (alloc [system_message;
                               mkMessage "user" (Text.strip raw)] w))) in
  sent wc = sent wa
  /\ transcript_at wc (length (heap w))
     = system_message :: exchange_messages raw r
  /\ console wc
     = console w ++ PrintBanner model :: shown markup_fails (exchange_event r)
  /\ console wa = console w ++ shown markup_fails (ask_event r).
Proof.
  intros Hb Hraw wc wa r. subst wc wa r.
  destruct (ask_run (Text.strip raw) model temperature max_tokens w) as [-> ->].
  cbn [fst]. rewrite chat_run, Hb.
  pose proof (session_start_allocated model w) as Hh.
  rewrite (loop_step _ _ _ _ _ _ _ Hh Hraw). cbv zeta.
  rewrite session_start_transcript.
  change (server (session_start model w)) with (server w).
  change (sent (session_start model w)) with (sent w).
  change ([system_message] ++ [mkMessage "user" (Text.strip raw)])
    with [system_message; mkMessage "user" (Text.strip raw)].
  set (req := bridge_request model _ temperature max_tokens default_url).
  set (r := result_of (server w (length (sent w)) req)).
  unfold shown.
  destruct (markup_fails (exchange_event r)), (markup_fails (ask_event r));
    cbn [snd chat_loop ret M_Monad];
    rewrite (after_exchange_transcript _ _ _ _ _ _ Hh),
      session_start_transcript;
    cbn [after_exchange after_ask session_start sent console app];
    rewrite <- ?app_assoc, ?app_nil_r; repeat split; reflexivity.
Qed.

(** *** Where the requests go *)

Lemma DEFAULT_OLLAMA_URL_unset :
  ~ In "OLLAMA_URL" (map fst os_environ) ->
  default_url = "http://localhost:11434".
Proof.
  unfold DEFAULT_OLLAMA_URL. induction os_environ as [| [k v] env IH]; cbn;
    [reflexivity |].
  intros Hin. destruct (String.eqb_spec k "OLLAMA_URL") as [-> | Hk].
  - exfalso. apply Hin. now left.
  - apply IH. intros H. apply Hin. now right.
Qed.

Lemma DEFAULT_OLLAMA_URL_set url :
  environ_ok os_environ ->
  In ("OLLAMA_URL", url) os_environ ->
  default_url = url.
Proof.
  unfold DEFAULT_OLLAMA_URL, environ_ok.
  induction os_environ as [| [k v] env IH]; cbn; [contradiction |].
  intros Hnd [Heq | Hin].
  - injection Heq as -> ->. now rewrite String.eqb_refl.
  - inversion Hnd as [| ? ? Hk Hnd']; subst.
    destruct (String.eqb_spec k "OLLAMA_URL") as [-> | Hne].
    + exfalso. apply Hk. apply (in_map fst) in Hin. exact Hin.
    + now apply IH.
Qed.

(** X10. Every request of the interactive and of the single-shot command
    goes to the server named by the environment variable OLLAMA_URL, at the
    path /api/chat, and to http://localhost:11434/api/chat when the variable
    is not set. *)
Theorem requests_go_to_configured_server
        model temperature max_tokens inputs question w :
  let wc := snd (session model temperature max_tokens inputs w) in
  let wa := snd (single_shot question model temperature max_tokens w) in
  (forall url,
      environ_ok os_environ ->
      In ("OLLAMA_URL", url) os_environ ->
      exists reqs reqa,
        sent wc = sent w ++ reqs /\ sent wa = sent w ++ [reqa]
        /\ Forall (fun req => req_url req = url +:+ "/api/chat") (reqa :: reqs))
  /\ (~ In "OLLAMA_URL" (map fst os_environ) ->
      exists reqs reqa,
        sent wc = sent w ++ reqs /\ sent wa = sent w ++ [reqa]
        /\ Forall (fun req => req_url req = "http://localhost:11434/api/chat")
                  (reqa :: reqs)).
Proof.
  intros wc wa.
  assert (Hall : exists reqs reqa,
             sent wc = sent w ++ reqs /\ sent wa = sent w ++ [reqa]
             /\ Forall (fun req => req_url req = default_url +:+ "/api/chat")
                       (reqa :: reqs)).
  { assert (Hc : exists reqs,
               sent wc = sent w ++ reqs
               /\ Forall (fun req => req_url req = default_url +:+ "/api/chat")
                         reqs).
    { subst wc. rewrite chat_run. destruct (markup_fails (PrintBanner model)).
      - exists []. split; [now rewrite app_nil_r | constructor].
      - destruct (loop_requests model temperature max_tokens (length (heap w))
                    inputs (session_start model w)
                    (session_start_allocated model w))
          as (reqs & Hsent & Hreqs).
        exists reqs. split; [exact Hsent |].
        eapply Forall_impl; [| exact Hreqs].
        intros req (t & q & -> & _). reflexivity. }
    destruct Hc as (reqs & Hsent & Hreqs).
    exists reqs. eexists. split; [exact Hsent |]. split.
    - subst wa.
      destruct (ask_run question model temperature max_tokens w) as [_ ->].
      now destruct (markup_fails _).
    - constructor; [reflexivity | exact Hreqs]. }
  split.
  - intros url Hok Hin. now rewrite <- (DEFAULT_OLLAMA_URL_set url Hok Hin).
  - intros Hunset. rewrite DEFAULT_OLLAMA_URL_unset in Hall by assumption.
    exact Hall.
Qed.

(** X17. Every turn recorded in the history of a session is trimmed: the
    content of each message other than the system message, user question or
    assistant answer, neither starts nor ends with whitespace. *)
Theorem recorded_turns_are_trimmed model temperature max_tokens inputs w :
  let w' := snd (session model temperature max_tokens inputs w) in
  Forall (fun m => role m = "system" \/ no_surrounding_space (content m))
         (transcript_at w' (length (heap w))).
Proof.
  cbv zeta. rewrite chat_run. destruct (markup_fails (PrintBanner model)) eqn:Hb.
  - cbn [snd]. unfold transcript_at.
    rewrite nth_overflow by lia. constructor.
  - apply loop_trimmed; [apply session_start_allocated |].
    rewrite session_start_transcript. constructor; [now left | constructor].
Qed.

End Properties.

(** ** The claims at concrete inputs *)

Import Demo.

Example strip_example : Text.strip "  What is an index fund?  " = "What is an index fund?".
Proof. reflexivity. Qed.

Example lower_example : Text.lower "EXIT" = "exit".
Proof. reflexivity. Qed.

Example str_example :
  py_str float_repr str_repr (JList [JStr "a'b"; JInt (-3); JNull; JBool true])
  = String "[" (String double_quote ("a'b" +:+ String double_quote ", -3, None, True]")).
Proof. reflexivity. Qed.

Lemma http_success_ok n (req : http_request float) body :
  http_success (server (with_transcript (always (ok body))) n req) body.
Proof. eexists. repeat split. Defined.

Lemma extraction_policy_witness :
  fst (run_bridge (always (ok both_shapes))) = Return "X"
  /\ fst (run_bridge (always (ok only_response))) = Return "Y"
  /\ fst (run_bridge (always (ok neither_shape))) = Raise SchemaError.
Proof.
  split; [| split].
  - exact (proj1 (proj1 (extraction_policy float_repr str_repr
                    "qwen2.5:7b-instruct" 0 "0.4" 512%Z "http://localhost:11434"
                    (with_transcript (always (ok both_shapes))) _
                    (http_success_ok _ _ both_shapes))
                 _ "  X  " eq_refl eq_refl)).
  - exact (proj1 (proj1 (proj2 (extraction_policy float_repr str_repr
                    "qwen2.5:7b-instruct" 0 "0.4" 512%Z "http://localhost:11434"
                    (with_transcript (always (ok only_response))) _
                    (http_success_ok _ _ only_response)))
                 (JStr " Y ") (or_introl eq_refl) eq_refl)).
  - exact (proj2 (proj2 (extraction_policy float_repr str_repr
                    "qwen2.5:7b-instruct" 0 "0.4" 512%Z "http://localhost:11434"
                    (with_transcript (always (ok neither_shape))) _
                    (http_success_ok _ _ neither_shape)))
                 (or_introl eq_refl) eq_refl).
Defined.

(** C1 fails as worded: a numeric "content" makes the call raise instead of
    returning it, and a "message" that is not an object makes the call raise
    although "response" is there. *)
Lemma extraction_policy_counterexample :
  fst (run_bridge (always (ok numeric_content))) = Raise AttributeError
  /\ fst (run_bridge (always (ok numeric_message))) = Raise TypeError
  /\ ~ extraction_claim float_repr str_repr.
Proof.
  split; [reflexivity |]. split; [reflexivity |].
  intros Hclaim.
  destruct (Hclaim "qwen2.5:7b-instruct" 0 "0.4" 512%Z "http://localhost:11434"
                   (with_transcript (always (ok numeric_content))) _
                   (http_success_ok _ _ numeric_content)) as [Hreturns _].
  destruct (Hreturns _ (JInt 5) eq_refl eq_refl) as [answer Hanswer].
  discriminate Hanswer.
Qed.

Lemma bridge_errors_witness :
  fst (run_bridge (always (post_raises (RequestException "Read timed out"))))
  = Raise (RuntimeError "Ollama request failed: Read timed out")
  /\ fst (run_bridge (always (post_returns
                                (mkResponse (Some (RequestException "404 Client Error"))
                                            (Return neither_shape)))))
     = Raise (RuntimeError "Ollama request failed: 404 Client Error")
  /\ fst (run_bridge (always (ok neither_shape)))
     = Raise (RuntimeError "Unexpected Ollama response schema").
Proof.
  split; [| split].
  - exact (proj1 (bridge_errors float_repr str_repr
                    "qwen2.5:7b-instruct" 0 "0.4" 512%Z "http://localhost:11434"
                    (with_transcript
                       (always (post_raises (RequestException "Read timed out")))))
                 "Read timed out" (or_introl eq_refl)).
  - exact (proj1 (bridge_errors float_repr str_repr
                    "qwen2.5:7b-instruct" 0 "0.4" 512%Z "http://localhost:11434"
                    (with_transcript
                       (always (post_returns
                                  (mkResponse (Some (RequestException "404 Client Error"))
                                              (Return neither_shape))))))
                 "404 Client Error"
                 (or_intror (ex_intro _ _ (conj eq_refl eq_refl)))).
  - exact (proj1 (proj2 (bridge_errors float_repr str_repr
                    "qwen2.5:7b-instruct" 0 "0.4" 512%Z "http://localhost:11434"
                    (with_transcript (always (ok neither_shape)))))
                 _ (http_success_ok _ _ neither_shape) (or_introl eq_refl) eq_refl).
Defined.

(** C2 fails as worded: on an HTTP success whose body is [{"message": null}],
    which has neither recognized shape, the call raises [TypeError], neither
    of the two kinds; so does invalid JSON, whose decoding error leaves the
    call as it is. *)
Lemma bridge_errors_counterexample :
  fst (run_bridge (always (ok null_message))) = Raise TypeError
  /\ fst (run_bridge (always (post_returns
                                (mkResponse None
                                            (Raise (RequestException "Expecting value"))))))
     = Raise (RequestException "Expecting value")
  /\ ~ error_kinds_claim float_repr str_repr.
Proof.
  split; [reflexivity |]. split; [reflexivity |].
  intros Hclaim.
  destruct (Hclaim "qwen2.5:7b-instruct" 0 "0.4" 512%Z "http://localhost:11434"
                   (with_transcript (always (ok null_message))) TypeError eq_refl)
    as [[cause Hcause] | Hschema]; discriminate.
Qed.

Lemma non_string_fields_witness :
  fst (run_bridge (always (ok numeric_content))) = Raise AttributeError
  /\ fst (run_bridge (always (ok numeric_response))) = Return "42".
Proof.
  split.
  - exact (proj1 (proj1 (non_string_fields float_repr str_repr
                    "qwen2.5:7b-instruct" 0 "0.4" 512%Z "http://localhost:11434"
                    (with_transcript (always (ok numeric_content))) _
                    (http_success_ok _ _ numeric_content))
                    _ (JInt 5) eq_refl eq_refl
                    (fun s H => eq_ind (JInt 5)
                                  (fun v => match v with JInt _ => True | _ => False end)
                                  I (JStr s) H))).
  - destruct (proj2 (non_string_fields float_repr str_repr
                    "qwen2.5:7b-instruct" 0 "0.4" 512%Z "http://localhost:11434"
                    (with_transcript (always (ok numeric_response))) _
                    (http_success_ok _ _ numeric_response))
                    (JInt 42) (or_introl eq_refl) eq_refl) as [answer [Hout Hans]].
    unfold run_bridge. rewrite Hout, Hans. reflexivity.
Defined.

Lemma awaiting_after_hello :
  fst (run_chat ["hello"] one_answer) = Return AwaitingInput.
Proof. reflexivity. Defined.

Lemma exit_ends_other_input_is_sent_witness :
  run_chat ["hello"; "  EXIT "; "ignored"] one_answer
  = (Return Ended, snd (run_chat ["hello"] one_answer))
  /\ sent (snd (run_chat ["hello"; "What is an ETF?"] one_answer))
     = sent (snd (run_chat ["hello"] one_answer))
       ++ [bridge_request "qwen2.5:7b-instruct"
             [system_message; mkMessage "user" "hello";
              mkMessage "assistant" "A1"; mkMessage "user" "What is an ETF?"]
             "0.4" 512 "http://localhost:11434"].
Proof.
  split.
  - apply (proj1 (exit_ends_other_input_is_sent float_repr str_repr os_environ
                    markup_fails "qwen2.5:7b-instruct" "0.4" 512%Z ["hello"]
                    "  EXIT " ["ignored"] one_answer awaiting_after_hello)).
    left. reflexivity.
  - apply (proj2 (exit_ends_other_input_is_sent float_repr str_repr os_environ
                    markup_fails "qwen2.5:7b-instruct" "0.4" 512%Z ["hello"]
                    "What is an ETF?" [] one_answer awaiting_after_hello)).
    apply (proj1 (is_exit_not_terminal _)). reflexivity.
Defined.



Lemma user_message_is_trimmed_input_witness :
  Text.strip "  hi there  " = "hi there"
  /\ sent (snd (run_chat ["  hi there  "] one_answer))
     = [bridge_request "qwen2.5:7b-instruct"
          [system_message; mkMessage "user" "hi there"]
          "0.4" 512 "http://localhost:11434"]
  /\ sent (snd (run_chat ["   "] one_answer))
     = [bridge_request "qwen2.5:7b-instruct"
          [system_message; mkMessage "user" ""]
          "0.4" 512 "http://localhost:11434"]
  /\ transcript_at (snd (run_chat ["   "] one_answer)) 0
     = [system_message; mkMessage "user" ""; mkMessage "assistant" "A1"].
Proof.
  split; [reflexivity |]. split; [| split].
  - apply (proj1 (proj2 (user_message_is_trimmed_input float_repr str_repr
                    os_environ markup_fails "qwen2.5:7b-instruct" "0.4" 512%Z []
                    "  hi there  " one_answer eq_refl))).
    apply (proj1 (is_exit_not_terminal _)). reflexivity.
  - apply (proj2 (proj2 (user_message_is_trimmed_input float_repr str_repr
                    os_environ markup_fails "qwen2.5:7b-instruct" "0.4" 512%Z []
                    "   " one_answer eq_refl))).
    reflexivity.
  - reflexivity.
Defined.

Lemma system_message_first_and_once_witness :
  transcript_ok (transcript_at (snd (run_chat ["hello"; "What is an ETF?"]
                                              one_answer)) 0).
Proof.
  apply (proj1 (proj2 (proj2 (system_message_first_and_once float_repr str_repr
           os_environ markup_fails "qwen2.5:7b-instruct" "0.4" 512%Z
           ["hello"; "What is an ETF?"] "What is an index fund?" one_answer)))).
  reflexivity.
Defined.


Example single_shot_example :
  (let (r, w) := run_ask "What is an index fund?" one_answer in
   (exit_status r, console w, length (sent w), heap w))
  = (0%Z, [PrintText "A1"], 1,
     [[system_message; mkMessage "user" "What is an index fund?"]])
  /\ (let (r, w) := run_ask "What is an index fund?" (scripted []) in
      (r, exit_status r, console w, length (sent w)))
     = (Raise (Exit 1), 1%Z,
        [PrintError (TransportError "Connection refused")], 1).
Proof. split; reflexivity. Qed.

(** The further properties that have hypotheses, at concrete inputs. *)

Lemma successful_exchange_records_answer_witness :
  let w' := snd (run_chat ["  hello "] one_answer) in
  transcript_at w' 0
  = [system_message; mkMessage "user" "hello"; mkMessage "assistant" "A1"]
  /\ console w' = [PrintBanner "qwen2.5:7b-instruct"; PrintPanel "A1"]
  /\ fst (run_chat ["hello"] tagged_answer) = Raise MarkupError.
Proof.
  destruct (successful_exchange_records_answer float_repr str_repr os_environ
              markup_fails "qwen2.5:7b-instruct" "0.4" 512%Z [] "  hello "
              one_answer "A1" eq_refl)
    as (Htranscript & Hrenders & _).
  - apply (proj1 (is_exit_not_terminal _)). reflexivity.
  - reflexivity.
  - destruct (Hrenders eq_refl) as [_ Hconsole].
    cbv zeta. split; [exact Htranscript |]. split; [exact Hconsole |].
    apply (successful_exchange_records_answer float_repr str_repr os_environ
             markup_fails "qwen2.5:7b-instruct" "0.4" 512%Z [] "hello"
             tagged_answer "[/INST] An index fund." eq_refl);
      [apply (proj1 (is_exit_not_terminal _)) | | ]; reflexivity.
Defined.


Lemma one_request_and_one_line_per_input_witness :
  length (sent (snd (run_chat ["hello"; "What is an ETF?"; "exit"; "more"]
                              one_answer)))
  = 2.
Proof.
  apply (one_request_and_one_line_per_input float_repr str_repr os_environ
           markup_fails "qwen2.5:7b-instruct" "0.4" 512%Z
           ["hello"; "What is an ETF?"; "exit"; "more"] one_answer Ended).
  reflexivity.
Defined.

Lemma history_is_the_exchanges_witness :
  texts_of "user" (transcript_at
                     (snd (run_chat ["  hello "; "What is an ETF?"; "exit"]
                                    one_answer)) 0)
  = ["hello"; "What is an ETF?"].
Proof.
  apply (history_is_the_exchanges float_repr str_repr os_environ markup_fails
           "qwen2.5:7b-instruct" "0.4" 512%Z
           ["  hello "; "What is an ETF?"; "exit"] one_answer Ended).
  reflexivity.
Defined.

Lemma displayed_answers_are_recorded_witness :
  exists events,
    console (snd (run_chat ["hello"; "What is an ETF?"] one_answer))
    = [] ++ PrintBanner "qwen2.5:7b-instruct" :: events
    /\ panel_texts events = ["A1"].
Proof.
  apply (displayed_answers_are_recorded float_repr str_repr os_environ
           markup_fails "qwen2.5:7b-instruct" "0.4" 512%Z
           ["hello"; "What is an ETF?"] one_answer AwaitingInput).
  reflexivity.
Defined.

Lemma session_owns_only_its_history_witness :
  heap (snd (run_chat ["hello"] (with_transcript one_answer)))
  = [[system_message; mkMessage "user" "hi"];
     [system_message; mkMessage "user" "hello"; mkMessage "assistant" "A1"]].
Proof.
  apply (session_owns_only_its_history float_repr str_repr os_environ
           markup_fails "qwen2.5:7b-instruct" "0.4" 512%Z ["hello"]
           (with_transcript one_answer)).
  reflexivity.
Defined.

Lemma first_turn_matches_single_shot_witness :
  sent (snd (run_chat ["  What is an index fund? "] one_answer))
  = sent (snd (run_ask "What is an index fund?" one_answer)).
Proof.
  apply (first_turn_matches_single_shot float_repr str_repr os_environ
           markup_fails "qwen2.5:7b-instruct" "0.4" 512%Z
           "  What is an index fund? " one_answer).
  - reflexivity.
  - apply (proj1 (is_exit_not_terminal _)). reflexivity.
Defined.

Lemma requests_go_to_configured_server_witness :
  (exists reqs reqa,
      sent (snd (chat float_repr str_repr remote_environ markup_fails
                      "m" "0.4" 512 ["hello"] one_answer)) = [] ++ reqs
      /\ sent (snd (ask float_repr str_repr remote_environ markup_fails
                        "hello" "m" "0.4" 512 one_answer)) = [] ++ [reqa]
      /\ Forall (fun req => req_url req = "http://gpu-box:11434/api/chat")
                (reqa :: reqs))
  /\ (exists reqs reqa,
         sent (snd (run_chat ["hello"] one_answer)) = [] ++ reqs
         /\ sent (snd (run_ask "hello" one_answer)) = [] ++ [reqa]
         /\ Forall (fun req => req_url req = "http://localhost:11434/api/chat")
                   (reqa :: reqs)).
Proof.
  split.
  - apply (proj1 (requests_go_to_configured_server float_repr str_repr
                    remote_environ markup_fails "m" "0.4" 512%Z ["hello"]
                    "hello" one_answer)
                 "http://gpu-box:11434").
    + repeat constructor; cbn; intuition discriminate.
    + right. left. reflexivity.
  - apply (proj2 (requests_go_to_configured_server float_repr str_repr
                    os_environ markup_fails "qwen2.5:7b-instruct" "0.4" 512%Z
                    ["hello"] "hello" one_answer)).
    intros H. exact H.
Defined.

Lemma bridge_answers_are_trimmed_witness :
  (exists d, http_success (ok both_shapes) (JDict d))
  /\ starts_with_space "X" = false
  /\ ends_with_space "X" = false.
Proof.
  exact (bridge_answers_are_trimmed float_repr str_repr
           "qwen2.5:7b-instruct" 0 "0.4" 512%Z "http://localhost:11434"
           (with_transcript (always (ok both_shapes))) "X" eq_refl).
Defined.

Lemma non_object_body_fails_witness :
  fst (run_bridge (always (ok (JList [])))) = Raise SchemaError
  /\ fst (run_bridge (always (ok (JStr "no response")))) = Raise TypeError
  /\ fst (run_bridge (always (ok JNull))) = Raise TypeError.
Proof.
  split; [| split].
  - apply (proj1 (non_object_body_fails float_repr str_repr
                    "qwen2.5:7b-instruct" 0 "0.4" 512%Z "http://localhost:11434"
                    (with_transcript (always (ok (JList [])))) (JList [])
                    (http_success_ok _ _ _) ltac:(discriminate)));
      reflexivity.
  - apply (proj2 (non_object_body_fails float_repr str_repr
                    "qwen2.5:7b-instruct" 0 "0.4" 512%Z "http://localhost:11434"
                    (with_transcript (always (ok (JStr "no response"))))
                    (JStr "no response")
                    (http_success_ok _ _ _) ltac:(discriminate))).
    intros [_ H]. discriminate H.
  - apply (proj2 (non_object_body_fails float_repr str_repr
                    "qwen2.5:7b-instruct" 0 "0.4" 512%Z "http://localhost:11434"
                    (with_transcript (always (ok JNull))) JNull
                    (http_success_ok _ _ _) ltac:(discriminate))).
    intros [H _]. discriminate H.
Defined.

Lemma non_object_message_witness :
  fst (run_bridge (always (ok text_message))) = Return "Y"
  /\ fst (run_bridge (always (ok null_message))) = Raise TypeError.
Proof.
  split.
  - apply (proj1 (non_object_message float_repr str_repr
                    "qwen2.5:7b-instruct" 0 "0.4" 512%Z "http://localhost:11434"
                    (with_transcript (always (ok text_message))) _ (JStr "hello")
                    (http_success_ok _ _ text_message) eq_refl
                    ltac:(discriminate))).
    reflexivity.
  - apply (proj2 (non_object_message float_repr str_repr
                    "qwen2.5:7b-instruct" 0 "0.4" 512%Z "http://localhost:11434"
                    (with_transcript (always (ok null_message))) _ JNull
                    (http_success_ok _ _ null_message) eq_refl
                    ltac:(discriminate))).
    discriminate.
Defined.

Lemma payload_determines_arguments_witness :
  "m" = "m"
  /\ [system_message; mkMessage "user" "hi"] = [system_message; mkMessage "user" "hi"]
  /\ ("0.4" : float) = "0.4"
  /\ 512%Z = 512%Z.
Proof.
  exact (payload_determines_arguments "m" "m"
           [system_message; mkMessage "user" "hi"]
           [system_message; mkMessage "user" "hi"]
           ("0.4" : float) "0.4" 512%Z 512%Z eq_refl).
Defined.

Lemma exit_test_ignores_padding_and_case_witness :
  is_exit (Text.strip ("  " +:+ "Exit" +:+ " ")) = is_exit (Text.strip "eXIT")
  /\ is_exit (Text.strip "eXIT") = true.
Proof.
  split; [| reflexivity].
  apply (exit_test_ignores_padding_and_case "  " " " "Exit" "eXIT");
    reflexivity.
Defined.

